(** * NIPI packet capture engine: a shallow embedding of
      [src/capture/packet_engine.py] and the properties of its
      capture-and-flow-tracking pipeline.

    Conventions of the embedding.
    - Python [int] is [Z]; [str] is [string]; [None]-able values are [option].
    - A [datetime] is the number of microseconds since the epoch ([Z]); the
      clock ([datetime.utcnow()]) is an input of every function that reads it,
      one input per call, with no monotonicity assumed.
    - A [float] number of seconds ([timedelta.total_seconds()], a rate) is the
      exact rational it stands for ([Q]).
    - A call that may raise returns a [py_result]; the exception is named by
      its class.
    - [logger] calls are returned as the list of entries written (level and
      message, without the interpolated exception text).
    - [self.active_flows] is a [gmap] from the hexadecimal key to the flow
      dictionary.  Within one sweep the rows are written in the order of
      [map_to_list], not in insertion order; nothing below depends on it. *)

From Stdlib Require Import ZArith QArith String List Lia Sorted.
From stdpp Require Import base option list gmap strings pretty.
Import ListNotations.

Local Open Scope string_scope.
Local Open Scope list_scope.
Local Open Scope Z_scope.

(** ** Python results and the log *)

Inductive py_result (A : Type) : Type :=
| Returned (value : A)
| Raised (exception_class : string).
Arguments Returned {A} value.
Arguments Raised {A} exception_class.

#[global] Instance py_result_eq_dec {A : Type} `{EqDecision A} :
  EqDecision (py_result A).
Proof. solve_decision. Defined.

Inductive log_level : Set := INFO | WARNING | ERROR.

Definition log_entry : Type := log_level * string.

(** ** Interface catalogue *)

(** What [psutil.net_if_stats().get(interface)] does for one interface: the
    call raises, the name is absent ([None]), or a [snicstats] tuple with its
    [isup] flag comes back. *)
Inductive nic_probe : Set :=
| ProbeRaises
| ProbeAbsent
| ProbeStats (isup : bool).

(** [interface in ['lo', 'localhost']] *)
Definition is_loopback (interface : string) : bool :=
  (String.eqb interface "lo" || String.eqb interface "localhost")%bool.

(** [get_available_interfaces]: the list of [get_if_list()], or [[]] when it
    raises. *)
Definition get_available_interfaces (get_if_list : py_result (list string))
  : list string :=
  match get_if_list with
  | Returned interfaces => interfaces
  | Raised _ => []
  end.

(** First loop of [auto_select_interface]. *)
Fixpoint first_up (net_if_stats : string -> nic_probe) (interfaces : list string)
  : option string :=
  match interfaces with
  | [] => None
  | interface :: rest =>
      if is_loopback interface then first_up net_if_stats rest
      else match net_if_stats interface with
           | ProbeStats true => Some interface
           | ProbeStats false | ProbeAbsent | ProbeRaises =>
               first_up net_if_stats rest
           end
  end.

(** Second loop of [auto_select_interface]. *)
Fixpoint first_non_loopback (interfaces : list string) : option string :=
  match interfaces with
  | [] => None
  | interface :: rest =>
      if negb (is_loopback interface) then Some interface
      else first_non_loopback rest
  end.

Definition auto_select_interface
    (get_if_list : py_result (list string)) (net_if_stats : string -> nic_probe)
  : string :=
  let interfaces := get_available_interfaces get_if_list in
  match first_up net_if_stats interfaces with
  | Some interface => interface
  | None =>
      match first_non_loopback interfaces with
      | Some interface => interface
      | None =>
          match interfaces with
          | interface :: _ => interface
          | [] => "eth0"
          end
      end
  end.

(** The catalogue as section 4.1 of the specification words it, to be compared
    with [auto_select_interface]. *)
Definition is_up_not_loopback (net_if_stats : string -> nic_probe)
    (interface : string) : bool :=
  (negb (is_loopback interface) &&
   match net_if_stats interface with ProbeStats true => true | _ => false end)%bool.

Definition AutoSelect_spec
    (interfaces : list string) (net_if_stats : string -> nic_probe)
  : py_result string :=
  match List.find (is_up_not_loopback net_if_stats) interfaces with
  | Some interface => Returned interface
  | None =>
      match List.find (fun i => negb (is_loopback i)) interfaces with
      | Some interface => Returned interface
      | None =>
          match interfaces with
          | interface :: _ => Returned interface
          | [] => Raised "NoInterfacesError"
          end
      end
  end.

(** ** Packets and packet records *)

(** The network layer of a dissected frame ([packet[IP]] or [packet[IPv6]]):
    [proto]/[nh], [ttl]/[hlim] and the length of the payload. *)
Record ip_layer : Type := {
  ip_src : string;
  ip_dst : string;
  ip_proto : Z;
  ip_ttl : Z;
  ip_payload_len : Z
}.

(** A frame as scapy hands it to the callback, reduced to what
    [_extract_packet_info] reads: its length, the interface name in its
    [sniffed_on] attribute ([None] when the attribute is missing) and the
    layers it contains. *)
Record Packet : Type := {
  pkt_len : Z;
  sniffed_on : option string;
  layer_Ether : option (string * string);
  layer_IP : option ip_layer;
  layer_IPv6 : option ip_layer;
  layer_TCP : option (Z * Z * string);
  layer_UDP : option (Z * Z);
  layer_ICMP : bool
}.

(** The dictionary built by [_extract_packet_info]. *)
Record PacketInfo : Type := {
  timestamp : Z;
  packet_size : Z;
  interface : string;
  src_mac : option string;
  dst_mac : option string;
  src_ip : string;
  dst_ip : string;
  protocol : Z;
  ttl : Z;
  payload_size : Z;
  src_port : option Z;
  dst_port : option Z;
  protocol_name : string;
  flags : string
}.

Definition _extract_packet_info (now : Z) (packet : Packet) : option PacketInfo :=
  let network :=
    match layer_IP packet with
    | Some ip => Some ip
    | None => layer_IPv6 packet
    end in
  match network with
  | None => None
  | Some ip =>
      let '(sport, dport, name, fl) :=
        match layer_TCP packet with
        | Some (sport, dport, tcp_flags) => (Some sport, Some dport, "TCP", tcp_flags)
        | None =>
            match layer_UDP packet with
            | Some (sport, dport) => (Some sport, Some dport, "UDP", "")
            | None =>
                if layer_ICMP packet then (None, None, "ICMP", "")
                else (None, None, "OTHER", "")
            end
        end in
      Some {| timestamp := now;
              packet_size := pkt_len packet;
              interface := default "unknown" (sniffed_on packet);
              src_mac := fst <$> layer_Ether packet;
              dst_mac := snd <$> layer_Ether packet;
              src_ip := ip_src ip;
              dst_ip := ip_dst ip;
              protocol := ip_proto ip;
              ttl := ip_ttl ip;
              payload_size := if 0 <? ip_payload_len ip then ip_payload_len ip else 0;
              src_port := sport;
              dst_port := dport;
              protocol_name := name;
              flags := fl |}
  end.

(** ** Flow key *)

(** [a < b] on two values that are [int] or [None]: Python orders integers and
    raises [TypeError] as soon as one side is [None]. *)
Definition py_lt (a b : option Z) : py_result bool :=
  match a, b with
  | Some x, Some y => Returned (x <? y)
  | _, _ => Raised "TypeError"
  end.

(** [f"{port}"] *)
Definition format_port (port : option Z) : string :=
  match port with
  | Some n => pretty n
  | None => "None"
  end.

(** [f"{ip_a}:{port_a}-{ip_b}:{port_b}-{protocol}"] *)
Definition format_flow_key (ip_a : string) (port_a : option Z)
    (ip_b : string) (port_b : option Z) (proto : string) : string :=
  ip_a +:+ ":" +:+ format_port port_a +:+ "-" +:+
  ip_b +:+ ":" +:+ format_port port_b +:+ "-" +:+ proto.

(** The test [src_ip < dst_ip or (src_ip == dst_ip and src_port < dst_port)],
    evaluated left to right with short circuit: the ports are compared only
    when the addresses are equal. *)
Definition source_first (p : PacketInfo) : py_result bool :=
  if String.ltb (src_ip p) (dst_ip p) then Returned true
  else if String.eqb (src_ip p) (dst_ip p) then py_lt (src_port p) (dst_port p)
  else Returned false.

Section FlowKey.

(** [hashlib.md5(s.encode()).hexdigest()], a function of the string. *)
Variable md5_hexdigest : string -> string.

Definition _create_flow_id (p : PacketInfo) : py_result string :=
  match source_first p with
  | Raised e => Raised e
  | Returned true =>
      Returned (md5_hexdigest
        (format_flow_key (src_ip p) (src_port p) (dst_ip p) (dst_port p)
           (protocol_name p)))
  | Returned false =>
      Returned (md5_hexdigest
        (format_flow_key (dst_ip p) (dst_port p) (src_ip p) (src_port p)
           (protocol_name p)))
  end.

End FlowKey.

(** ** The database sink *)

(** A row of [packet_captures] as [_store_packet] fills it. *)
Record PacketCapture : Type := {
  pc_timestamp : Z;
  pc_src_ip : string;
  pc_dst_ip : string;
  pc_src_port : option Z;
  pc_dst_port : option Z;
  pc_protocol : string;
  pc_packet_size : Z;
  pc_ttl : Z;
  pc_flags : string;
  pc_payload_size : Z;
  pc_interface : string
}.

(** A row of [flow_sessions] as [_cleanup_old_flows] fills it; [fs_duration]
    is the [Float] column, in seconds. *)
Record FlowSession : Type := {
  fs_session_id : string;
  fs_src_ip : string;
  fs_dst_ip : string;
  fs_src_port : option Z;
  fs_dst_port : option Z;
  fs_protocol : string;
  fs_start_time : Z;
  fs_end_time : Z;
  fs_duration : Q;
  fs_packet_count : Z;
  fs_bytes_transferred : Z;
  fs_status : string
}.

Inductive db_row : Type :=
| PacketRow (row : PacketCapture)
| FlowRow (row : FlowSession).

(** What the expression [get_db_session()] evaluates to, as far as the [with]
    statement of the engine can tell.  [packet_engine] looks the name
    [get_db_session] up when the statement runs, so the functions below take
    this value as a parameter.
    - [GeneratorObject]: a plain generator, which has neither [__enter__] nor
      [__exit__]; the [with] statement raises before its body runs
      ([TypeError] as of Python 3.11, [AttributeError] before).
    - [SessionManager commit]: a context manager yielding a session; the body
      runs and [commit rows row] tells whether adding [row] to a database
      holding [rows] and committing succeeds (otherwise the transaction is
      rolled back and the exception leaves the [with] statement). *)
Inductive session_source : Type :=
| GeneratorObject
| SessionManager (commit : list db_row -> db_row -> bool).

(** [get_db_session] of [src/database/connection.py]: a [def] whose body
    yields and which carries no [@contextmanager] decorator (unlike
    [DatabaseManager.get_session]); calling it gives a generator object. *)
Definition connection_get_db_session : session_source := GeneratorObject.

(** [with get_db_session() as session: session.add(row); session.commit()] *)
Definition with_db_session (get_db_session : session_source)
    (rows : list db_row) (row : db_row) : py_result unit * list db_row :=
  match get_db_session with
  | GeneratorObject => (Raised "TypeError", rows)
  | SessionManager commit =>
      if commit rows row then (Returned tt, rows ++ [row])
      else (Raised "Exception", rows)
  end.

(** What the engine writes outside itself: database rows and log entries. *)
Record Env : Type := {
  db : list db_row;
  log : list log_entry
}.

Definition write_log (entry : log_entry) (env : Env) : Env :=
  {| db := db env; log := log env ++ [entry] |}.

(** ** Flow tracking *)

(** A value of [self.active_flows]. *)
Record Flow : Type := {
  session_id : string;
  flow_src_ip : string;
  flow_dst_ip : string;
  flow_src_port : option Z;
  flow_dst_port : option Z;
  flow_protocol : string;
  start_time : Z;
  last_seen : Z;
  packet_count : Z;
  bytes_transferred : Z;
  status : string
}.

(** [self.flow_timeout], in seconds. *)
Definition flow_timeout : Z := 300.

(** [timedelta.total_seconds()] of a difference of two datetimes. *)
Definition total_seconds (microseconds : Z) : Q := microseconds # 1000000.

(** [a > b] on a float and an integer. *)
Definition float_gt_int (a : Q) (b : Z) : bool := negb (Qle_bool a (inject_Z b)).

(** The [FlowSession(...)] object built in [_cleanup_old_flows]. *)
Definition flow_record (time_diff : Q) (flow : Flow) : FlowSession :=
  {| fs_session_id := session_id flow;
     fs_src_ip := flow_src_ip flow;
     fs_dst_ip := flow_dst_ip flow;
     fs_src_port := flow_src_port flow;
     fs_dst_port := flow_dst_port flow;
     fs_protocol := flow_protocol flow;
     fs_start_time := start_time flow;
     fs_end_time := last_seen flow;
     fs_duration := time_diff;
     fs_packet_count := packet_count flow;
     fs_bytes_transferred := bytes_transferred flow;
     fs_status := "timeout" |}.

(** The [PacketCapture(...)] object built in [_store_packet]. *)
Definition packet_row (p : PacketInfo) : PacketCapture :=
  {| pc_timestamp := timestamp p;
     pc_src_ip := src_ip p;
     pc_dst_ip := dst_ip p;
     pc_src_port := src_port p;
     pc_dst_port := dst_port p;
     pc_protocol := protocol_name p;
     pc_packet_size := packet_size p;
     pc_ttl := ttl p;
     pc_flags := flags p;
     pc_payload_size := payload_size p;
     pc_interface := interface p |}.

(** The three readings of the clock made while one packet is analysed. *)
Record Clock : Type := {
  t_extract : Z;
  t_update : Z;
  t_sweep : Z
}.

Section Tracker.

Variable md5_hexdigest : string -> string.
Variable get_db_session : session_source.

Definition _store_packet (p : PacketInfo) (env : Env) : Env :=
  match with_db_session get_db_session (db env) (PacketRow (packet_row p)) with
  | (Returned _, rows) => {| db := rows; log := log env |}
  | (Raised _, _) => write_log (ERROR, "Error storing packet") env
  end.

(** The [try] block inside the loop of [_cleanup_old_flows]. *)
Definition store_flow_session (time_diff : Q) (flow : Flow) (env : Env) : Env :=
  match with_db_session get_db_session (db env)
          (FlowRow (flow_record time_diff flow)) with
  | (Returned _, rows) => {| db := rows; log := log env |}
  | (Raised _, _) => write_log (ERROR, "Error storing flow session") env
  end.

(** One iteration of the first loop of [_cleanup_old_flows]; the state of the
    loop is [flows_to_remove] and the environment. *)
Definition sweep_item (current_time : Z) (acc : list string * Env)
    (item : string * Flow) : list string * Env :=
  let time_diff := total_seconds (current_time - last_seen item.2) in
  if float_gt_int time_diff flow_timeout
  then (acc.1 ++ [item.1], store_flow_session time_diff item.2 acc.2)
  else acc.

Definition _cleanup_old_flows (current_time : Z)
    (active_flows : gmap string Flow) (env : Env) : gmap string Flow * Env :=
  let '(flows_to_remove, env') :=
    foldl (sweep_item current_time) ([], env) (map_to_list active_flows) in
  (foldl (fun flows flow_id => delete flow_id flows) active_flows flows_to_remove,
   env').

(** The two branches of [if flow_id in self.active_flows]. *)
Definition touch_flow (current_time : Z) (p : PacketInfo) (flow : Flow) : Flow :=
  {| session_id := session_id flow;
     flow_src_ip := flow_src_ip flow;
     flow_dst_ip := flow_dst_ip flow;
     flow_src_port := flow_src_port flow;
     flow_dst_port := flow_dst_port flow;
     flow_protocol := flow_protocol flow;
     start_time := start_time flow;
     last_seen := current_time;
     packet_count := packet_count flow + 1;
     bytes_transferred := bytes_transferred flow + packet_size p;
     status := status flow |}.

Definition new_flow (flow_id : string) (current_time : Z) (p : PacketInfo) : Flow :=
  {| session_id := flow_id;
     flow_src_ip := src_ip p;
     flow_dst_ip := dst_ip p;
     flow_src_port := src_port p;
     flow_dst_port := dst_port p;
     flow_protocol := protocol_name p;
     start_time := current_time;
     last_seen := current_time;
     packet_count := 1;
     bytes_transferred := packet_size p;
     status := "active" |}.

Definition record_packet (flow_id : string) (current_time : Z) (p : PacketInfo)
    (active_flows : gmap string Flow) : gmap string Flow :=
  match active_flows !! flow_id with
  | Some flow => <[flow_id := touch_flow current_time p flow]> active_flows
  | None => <[flow_id := new_flow flow_id current_time p]> active_flows
  end.

Definition _update_flow_session (clock : Clock) (p : PacketInfo)
    (active_flows : gmap string Flow) (env : Env) : gmap string Flow * Env :=
  match _create_flow_id md5_hexdigest p with
  | Returned flow_id =>
      _cleanup_old_flows (t_sweep clock)
        (record_packet flow_id (t_update clock) p active_flows) env
  | Raised _ =>
      (active_flows, write_log (ERROR, "Error updating flow session") env)
  end.

Definition _analyze_packet (clock : Clock) (packet : Packet)
    (active_flows : gmap string Flow) (env : Env) : gmap string Flow * Env :=
  match _extract_packet_info (t_extract clock) packet with
  | Some packet_info =>
      _update_flow_session clock packet_info active_flows
        (_store_packet packet_info env)
  | None => (active_flows, env)
  end.

End Tracker.

(** ** The engine *)

(** [self.stats] *)
Record Stats : Type := {
  packets_captured : Z;
  packets_processed : Z;
  packets_dropped : Z;
  bytes_captured : Z;
  stats_start_time : option Z
}.

(** A started daemon thread, by its target and arguments. *)
Inductive Thread : Type :=
| ProcessorThread
| CaptureThread (interface : string) (packet_filter : option string).

Record Engine : Type := {
  is_running : bool;
  capture_thread : option Thread;
  processor_thread : option Thread;
  packet_queue : list Packet;
  stats : Stats;
  active_flows : gmap string Flow
}.

(** [Queue(maxsize=10000)] *)
Definition maxsize : Z := 10000.

Definition qsize (queue : list Packet) : Z := Z.of_nat (length queue).

(** [Queue.full()]: [0 < maxsize <= qsize()] *)
Definition full (queue : list Packet) : bool :=
  ((0 <? maxsize) && (maxsize <=? qsize queue))%bool.

(** [PacketCaptureEngine.__init__] *)
Definition init : Engine :=
  {| is_running := false;
     capture_thread := None;
     processor_thread := None;
     packet_queue := [];
     stats := {| packets_captured := 0;
                 packets_processed := 0;
                 packets_dropped := 0;
                 bytes_captured := 0;
                 stats_start_time := None |};
     active_flows := ∅ |}.

Definition set_running (flag : bool) (e : Engine) : Engine :=
  {| is_running := flag;
     capture_thread := capture_thread e;
     processor_thread := processor_thread e;
     packet_queue := packet_queue e;
     stats := stats e;
     active_flows := active_flows e |}.

(** What [start_capture] reads from outside the engine: the interface
    enumeration, the interface statistics and the clock. *)
Record Host : Type := {
  get_if_list : py_result (list string);
  net_if_stats : string -> nic_probe;
  utcnow : Z
}.

Definition start_capture (host : Host)
    (interface : option string) (packet_filter : option string)
    (e : Engine) : py_result unit * Engine * list log_entry :=
  if is_running e then
    (Returned tt, e, [(WARNING, "Packet capture is already running")])
  else
    let interface :=
      match interface with
      | None => auto_select_interface (get_if_list host) (net_if_stats host)
      | Some name =>
          if String.eqb name "auto"
          then auto_select_interface (get_if_list host) (net_if_stats host)
          else name
      end in
    (Returned tt,
     {| is_running := true;
        capture_thread := Some (CaptureThread interface packet_filter);
        processor_thread := Some ProcessorThread;
        packet_queue := packet_queue e;
        stats := {| packets_captured := packets_captured (stats e);
                    packets_processed := packets_processed (stats e);
                    packets_dropped := packets_dropped (stats e);
                    bytes_captured := bytes_captured (stats e);
                    stats_start_time := Some (utcnow host) |};
        active_flows := active_flows e |},
     [(INFO, "Starting packet capture on interface: " +:+ interface);
      (INFO, "Packet capture started successfully")]).

(** [Thread.join(timeout=5)]: returns [None] when the thread has ended and
    also when the five seconds have passed with the thread still running. *)
Definition join (thread : Thread) (ended_in_time : bool) : unit := tt.

(** Whether each worker ends within the five seconds [stop_capture] waits for
    it. *)
Record Joins : Type := {
  capture_ended : bool;
  processor_ended : bool
}.

Definition stop_capture (joins : Joins) (e : Engine)
  : py_result unit * Engine * list log_entry :=
  if negb (is_running e) then
    (Returned tt, e, [(WARNING, "Packet capture is not running")])
  else
    let e' := set_running false e in
    let 'tt :=
      match capture_thread e' with
      | Some thread => join thread (capture_ended joins)
      | None => tt
      end in
    let 'tt :=
      match processor_thread e' with
      | Some thread => join thread (processor_ended joins)
      | None => tt
      end in
    (Returned tt, e',
     [(INFO, "Stopping packet capture..."); (INFO, "Packet capture stopped")]).

(** The callback [packet_handler] that [_capture_packets] gives to [sniff]. *)
Definition packet_handler (packet : Packet) (e : Engine) : Engine :=
  if negb (is_running e) then e
  else if negb (full (packet_queue e)) then
    {| is_running := is_running e;
       capture_thread := capture_thread e;
       processor_thread := processor_thread e;
       packet_queue := packet_queue e ++ [packet];
       stats := {| packets_captured := packets_captured (stats e) + 1;
                   packets_processed := packets_processed (stats e);
                   packets_dropped := packets_dropped (stats e);
                   bytes_captured := bytes_captured (stats e) + pkt_len packet;
                   stats_start_time := stats_start_time (stats e) |};
       active_flows := active_flows e |}
  else
    {| is_running := is_running e;
       capture_thread := capture_thread e;
       processor_thread := processor_thread e;
       packet_queue := packet_queue e;
       stats := {| packets_captured := packets_captured (stats e);
                   packets_processed := packets_processed (stats e);
                   packets_dropped := packets_dropped (stats e) + 1;
                   bytes_captured := bytes_captured (stats e);
                   stats_start_time := stats_start_time (stats e) |};
       active_flows := active_flows e |}.

(** What [sniff] does in [_capture_packets]: it calls the callback on the
    frames it reads, and either returns (the stop filter fired) or raises (the
    source could not be opened, in which case no frame was read, or a later
    failure). *)
Inductive Sniff : Type :=
| SniffReturns (frames : list Packet)
| SniffRaises (frames : list Packet).

Definition sniffed_frames (sniff : Sniff) : list Packet :=
  match sniff with SniffReturns frames | SniffRaises frames => frames end.

(** The body of the capture thread. *)
Definition _capture_packets (sniff : Sniff) (e : Engine)
  : Engine * list log_entry :=
  let e' := foldl (fun e packet => packet_handler packet e) e (sniffed_frames sniff) in
  match sniff with
  | SniffReturns _ => (e', [])
  | SniffRaises _ => (set_running false e', [(ERROR, "Error in packet capture")])
  end.

Section Consumer.

Variable md5_hexdigest : string -> string.
Variable get_db_session : session_source.

(** One turn of the [while] loop of [_process_packets]. *)
Definition _process_packets_turn (clock : Clock) (e : Engine) (env : Env)
  : Engine * Env :=
  match packet_queue e with
  | packet :: rest =>
      let '(flows, env') :=
        _analyze_packet md5_hexdigest get_db_session clock packet
          (active_flows e) env in
      ({| is_running := is_running e;
          capture_thread := capture_thread e;
          processor_thread := processor_thread e;
          packet_queue := rest;
          stats := {| packets_captured := packets_captured (stats e);
                      packets_processed := packets_processed (stats e) + 1;
                      packets_dropped := packets_dropped (stats e);
                      bytes_captured := bytes_captured (stats e);
                      stats_start_time := stats_start_time (stats e) |};
          active_flows := flows |}, env')
  | [] => (e, env)
  end.

(** The loop condition of [_process_packets]. *)
Definition _process_packets_continues (e : Engine) : bool :=
  (is_running e || negb (match packet_queue e with [] => true | _ => false end))%bool.

End Consumer.

(** ** Statistics *)

Inductive py_value : Type :=
| VNone
| VInt (n : Z)
| VFloat (x : Q)
| VDatetime (t : Z).

Definition get_statistics (now : Z) (e : Engine) : gmap string py_value :=
  let copy : gmap string py_value :=
    <["start_time" := from_option VDatetime VNone (stats_start_time (stats e))]>
    (<["bytes_captured" := VInt (bytes_captured (stats e))]>
    (<["packets_dropped" := VInt (packets_dropped (stats e))]>
    (<["packets_processed" := VInt (packets_processed (stats e))]>
    (<["packets_captured" := VInt (packets_captured (stats e))]> ∅)))) in
  let snapshot :=
    <["queue_size" := VInt (qsize (packet_queue e))]>
    (<["active_flows" := VInt (Z.of_nat (size (active_flows e)))]> copy) in
  match stats_start_time (stats e) with
  | Some started =>
      let runtime := total_seconds (now - started) in
      <["packets_per_second" :=
          if float_gt_int runtime 0
          then VFloat (inject_Z (packets_captured (stats e)) / runtime)
          else VInt 0]>
      (<["runtime_seconds" := VFloat runtime]> snapshot)
  | None => snapshot
  end.

(** ** Runs of the engine *)

(** What can happen to an engine between two quiescent points: a call of the
    control surface, one frame given to the callback by the capture thread,
    the capture thread failing, one turn of the consumer loop. *)
Inductive Event : Type :=
| CallStart (host : Host) (interface : option string) (packet_filter : option string)
| CallStop (joins : Joins)
| FrameArrives (packet : Packet)
| CaptureFails
| ConsumerTurn (clock : Clock).

Definition write_logs (entries : list log_entry) (env : Env) : Env :=
  {| db := db env; log := log env ++ entries |}.

Definition no_output : Env := {| db := []; log := [] |}.

Section Runs.

Variable md5_hexdigest : string -> string.
Variable get_db_session : session_source.

Definition step (w : Engine * Env) (ev : Event) : Engine * Env :=
  match ev with
  | CallStart host interface packet_filter =>
      let '(_, e, entries) := start_capture host interface packet_filter w.1 in
      (e, write_logs entries w.2)
  | CallStop joins =>
      let '(_, e, entries) := stop_capture joins w.1 in
      (e, write_logs entries w.2)
  | FrameArrives packet => (packet_handler packet w.1, w.2)
  | CaptureFails =>
      let '(e, entries) := _capture_packets (SniffRaises []) w.1 in
      (e, write_logs entries w.2)
  | ConsumerTurn clock =>
      _process_packets_turn md5_hexdigest get_db_session clock w.1 w.2
  end.

Definition run (events : list Event) (w : Engine * Env) : Engine * Env :=
  foldl step w events.

(** *** Runs of the flow tracker *)

(** The keys collected in [flows_to_remove] by one sweep. *)
Definition flows_to_remove (current_time : Z) (active_flows : gmap string Flow)
    (env : Env) : list string :=
  (foldl (sweep_item get_db_session current_time) ([], env)
     (map_to_list active_flows)).1.

(** What one call of [_update_flow_session] shows of itself: the key it
    computed, if any, and the keys its sweep evicted. *)
Definition observation (clock : Clock) (p : PacketInfo)
    (active_flows : gmap string Flow) (env : Env) : option string * list string :=
  match _create_flow_id md5_hexdigest p with
  | Returned flow_id =>
      (Some flow_id,
       flows_to_remove (t_sweep clock)
         (record_packet flow_id (t_update clock) p active_flows) env)
  | Raised _ => (None, [])
  end.

(** The tracker after a sequence of [_update_flow_session] calls, with the
    observations of the calls, latest first. *)
Definition ingest (w : gmap string Flow * Env * list (option string * list string))
    (call : Clock * PacketInfo)
  : gmap string Flow * Env * list (option string * list string) :=
  let '(flows, env, history) := w in
  (_update_flow_session md5_hexdigest get_db_session call.1 call.2 flows env,
   observation call.1 call.2 flows env :: history).

Definition ingest_all (calls : list (Clock * PacketInfo))
  : gmap string Flow * Env * list (option string * list string) :=
  foldl ingest (∅, no_output, []) calls.

End Runs.

(** The number of [_update_flow_session] calls seen for [flow_id] since its
    flow was last evicted: read off a history of observations, latest
    first. *)
Fixpoint ingests_since_eviction (flow_id : string)
    (history : list (option string * list string)) : Z :=
  match history with
  | [] => 0
  | (ingested, evicted) :: older =>
      if bool_decide (flow_id ∈ evicted) then 0
      else (if bool_decide (ingested = Some flow_id) then 1 else 0)
           + ingests_since_eviction flow_id older
  end.

(** The rows added to the database between two environments, and among rows
    the flow sessions of one key. *)
Definition new_rows (before after : Env) : list db_row :=
  drop (length (db before)) (db after).

Definition flow_sessions_of (flow_id : string) (rows : list db_row)
  : list FlowSession :=
  omap (fun row =>
          match row with
          | FlowRow r => if String.eqb (fs_session_id r) flow_id then Some r else None
          | PacketRow _ => None
          end) rows.

(** ** Notions used in the statements *)

(** The two directions of one conversation: endpoints swapped, protocol
    kept; the other fields are free. *)
Definition reverse_direction (p q : PacketInfo) : Prop :=
  src_ip q = dst_ip p /\ dst_ip q = src_ip p /\
  src_port q = dst_port p /\ dst_port q = src_port p /\
  protocol_name q = protocol_name p.

(** A stop reports a fault when it raises or logs above the level [INFO]. *)
Definition reports_fault (result : py_result unit * Engine * list log_entry) : Prop :=
  (exists exc, result.1.1 = Raised exc) \/
  (exists level message, (level, message) ∈ result.2 /\ level <> INFO).

(** What every quiescent state of the engine satisfies. *)
Definition counters_balanced (e : Engine) : Prop :=
  packets_processed (stats e) + qsize (packet_queue e)
  = packets_captured (stats e) /\
  qsize (packet_queue e) <= maxsize.

(** The test of the sweep on one flow. *)
Definition expired (current_time : Z) (flow : Flow) : bool :=
  float_gt_int (total_seconds (current_time - last_seen flow)) flow_timeout.

(** The flows a sweep finds idle, in the order it meets them, and the
    [FlowSession] objects it builds for them. *)
Definition due (current_time : Z) (items : list (string * Flow))
  : list (string * Flow) :=
  List.filter (fun item => expired current_time item.2) items.

Definition due_record (current_time : Z) (item : string * Flow) : FlowSession :=
  flow_record (total_seconds (current_time - last_seen item.2)) item.2.

(** The flow table files every flow under its own session id. *)
Definition keyed_by_session_id (flows : gmap string Flow) : Prop :=
  forall key flow, flows !! key = Some flow -> session_id flow = key.

(** What ties the flow table to the history of the calls that built it: a
    flow is filed under its session id and has counted the calls seen for its
    key since the key was last evicted (at least one); a key without a flow
    has seen none since. *)
Definition tracked (flows : gmap string Flow)
    (history : list (option string * list string)) : Prop :=
  forall key,
    match flows !! key with
    | Some flow =>
        session_id flow = key /\
        packet_count flow = ingests_since_eviction key history /\
        1 <= packet_count flow
    | None => ingests_since_eviction key history = 0
    end.

(** ** Sample inputs

    In the samples the digest is the identity function, so that a key can be
    read; the theorems hold for every digest function. *)

Definition tcp_forward : PacketInfo :=
  {| timestamp := 0; packet_size := 64; interface := "eth0";
     src_mac := None; dst_mac := None;
     src_ip := "10.0.0.1"; dst_ip := "10.0.0.2";
     protocol := 6; ttl := 64; payload_size := 44;
     src_port := Some 1234; dst_port := Some 80;
     protocol_name := "TCP"; flags := "S" |}.

Definition tcp_backward : PacketInfo :=
  {| timestamp := 5; packet_size := 60; interface := "eth0";
     src_mac := None; dst_mac := None;
     src_ip := "10.0.0.2"; dst_ip := "10.0.0.1";
     protocol := 6; ttl := 57; payload_size := 40;
     src_port := Some 80; dst_port := Some 1234;
     protocol_name := "TCP"; flags := "SA" |}.

Definition lab_host : Host :=
  {| get_if_list := Returned ["lo"; "eth0"; "wlan0"];
     net_if_stats := fun name =>
       if String.eqb name "wlan0" then ProbeStats true
       else if String.eqb name "eth0" then ProbeStats false
       else ProbeAbsent;
     utcnow := 1000000 |}.

(** The engine after [start_capture("auto")] on a fresh engine. *)
Definition started : Engine :=
  (start_capture lab_host (Some "auto") None init).1.2.

Definition both_leaked : Joins :=
  {| capture_ended := false; processor_ended := false |}.

Definition both_ended : Joins :=
  {| capture_ended := true; processor_ended := true |}.

Definition icmp_frame : Packet :=
  {| pkt_len := 98; sniffed_on := Some "lo";
     layer_Ether := Some ("00:00:00:00:00:00", "00:00:00:00:00:00");
     layer_IP := Some {| ip_src := "127.0.0.1"; ip_dst := "127.0.0.1";
                         ip_proto := 1; ip_ttl := 64; ip_payload_len := 64 |};
     layer_IPv6 := None; layer_TCP := None; layer_UDP := None;
     layer_ICMP := true |}.

(** The burst of scenario D: a start, then 10,001 frames given to the
    callback with no turn of the consumer in between. *)
Definition scenario_D : list Event :=
  CallStart lab_host (Some "auto") None
  :: map FrameArrives (replicate (Z.to_nat 10001) icmp_frame).

Definition at_time (t : Z) : Clock :=
  {| t_extract := t; t_update := t; t_sweep := t |}.

Definition udp_other : PacketInfo :=
  {| timestamp := 400000000; packet_size := 80; interface := "eth0";
     src_mac := None; dst_mac := None;
     src_ip := "10.0.0.3"; dst_ip := "10.0.0.9";
     protocol := 17; ttl := 64; payload_size := 52;
     src_port := Some 5353; dst_port := Some 53;
     protocol_name := "UDP"; flags := "" |}.

(** A TCP conversation of two packets, at 0 s and at 10 s. *)
Definition tcp_conversation : list (Clock * PacketInfo) :=
  [(at_time 0, tcp_forward); (at_time 10000000, tcp_backward)].

Definition tcp_key : string := "10.0.0.1:1234-10.0.0.2:80-TCP".

(** A session manager whose commits always succeed. *)
Definition committing : session_source := SessionManager (fun _ _ => true).

(** The record [_extract_packet_info] builds for [icmp_frame], an ICMP echo
    from 127.0.0.1 to itself. *)
Definition icmp_self : PacketInfo :=
  {| timestamp := 0; packet_size := 98; interface := "lo";
     src_mac := Some "00:00:00:00:00:00"; dst_mac := Some "00:00:00:00:00:00";
     src_ip := "127.0.0.1"; dst_ip := "127.0.0.1";
     protocol := 1; ttl := 64; payload_size := 64;
     src_port := None; dst_port := None;
     protocol_name := "ICMP"; flags := "" |}.

(** ** The consumer loop, sized histories, the web routes and the session
       manager *)

Section ConsumerLoop.

Variable md5_hexdigest : string -> string.
Variable get_db_session : session_source.

(** The [while] loop of [_process_packets], run while nothing else touches
    the engine.  Every turn reads the clock (a turn on an empty queue only
    sleeps); the readings are the fuel, and [None] says that they ran out
    with the loop condition still true. *)
Fixpoint _process_packets (clocks : list Clock) (e : Engine) (env : Env)
  : option (Engine * Env) :=
  if _process_packets_continues e then
    match clocks with
    | [] => None
    | clock :: clocks' =>
        let '(e', env') :=
          _process_packets_turn md5_hexdigest get_db_session clock e env in
        _process_packets clocks' e' env'
    end
  else Some (e, env).

(** A run of [_update_flow_session] calls as [ingest_all], the history
    keeping beside each observation the size of the packet of the call. *)
Definition ingest_sized
    (w : gmap string Flow * Env * list (option string * list string * Z))
    (call : Clock * PacketInfo)
  : gmap string Flow * Env * list (option string * list string * Z) :=
  let '(flows, env, history) := w in
  (_update_flow_session md5_hexdigest get_db_session call.1 call.2 flows env,
   (observation md5_hexdigest get_db_session call.1 call.2 flows env,
    packet_size call.2) :: history).

Definition ingest_all_sized (calls : list (Clock * PacketInfo))
  : gmap string Flow * Env * list (option string * list string * Z) :=
  foldl ingest_sized (∅, no_output, []) calls.

End ConsumerLoop.

(** The bytes of the calls seen for [flow_id] since its flow was last
    evicted: read off a sized history, latest first. *)
Fixpoint bytes_since_eviction (flow_id : string)
    (history : list (option string * list string * Z)) : Z :=
  match history with
  | [] => 0
  | (ingested, evicted, size) :: older =>
      if bool_decide (flow_id ∈ evicted) then 0
      else (if bool_decide (ingested = Some flow_id) then size else 0)
           + bytes_since_eviction flow_id older
  end.

(** The sum of [len(packet)] over frames. *)
Definition total_length (frames : list Packet) : Z :=
  foldr (fun packet sum => pkt_len packet + sum) 0 frames.

(** *** Capture routes of [web/app.py] *)

(** The JSON object a capture route answers with: [status] and [message]. *)
Definition Answer : Type := string * string.

(** [POST /capture/start]: the form fields [interface] and [filter] with
    their defaults, the call of the engine, and the answer. *)
Definition route_start_capture (host : Host) (form : gmap string string)
    (e : Engine) : Answer * Engine * list log_entry :=
  let interface := default "auto" (form !! "interface") in
  let packet_filter := default "" (form !! "filter") in
  match start_capture host (Some interface) (Some packet_filter) e with
  | (Returned _, e', entries) =>
      (("success", "Packet capture started"), e', entries)
  | (Raised exc, e', entries) => (("error", exc), e', entries)
  end.

(** [POST /capture/stop] *)
Definition route_stop_capture (joins : Joins) (e : Engine)
  : Answer * Engine * list log_entry :=
  match stop_capture joins e with
  | (Returned _, e', entries) =>
      (("success", "Packet capture stopped"), e', entries)
  | (Raised exc, e', entries) => (("error", exc), e', entries)
  end.

(** *** [NIPIWebApp.run] and its call in [main] *)

(** [self.config['app']] as [run] reads it: the three keys it asks for, each
    present or not. *)
Record AppSection : Type := {
  app_host : option string;
  app_port : option Z;
  app_debug : option bool
}.

(** [self.config['app']]; the subscript raises [KeyError] when the
    configuration has no such section. *)
Definition app_section (config : option AppSection) : py_result AppSection :=
  match config with
  | Some section => Returned section
  | None => Raised "KeyError"
  end.

(** [NIPIWebApp.run], up to the arguments given to [self.app.run]. *)
Definition run_settings (config : option AppSection)
    (host : option string) (port : option Z) (debug : option bool)
  : py_result (string * Z * bool) :=
  let resolved_host :=
    match host with
    | Some h => Returned h
    | None =>
        match app_section config with
        | Returned section => Returned (default "0.0.0.0" (app_host section))
        | Raised exc => Raised exc
        end
    end in
  match resolved_host with
  | Raised exc => Raised exc
  | Returned h =>
      let resolved_port :=
        match port with
        | Some n => Returned n
        | None =>
            match app_section config with
            | Returned section => Returned (default 8080 (app_port section))
            | Raised exc => Raised exc
            end
        end in
      match resolved_port with
      | Raised exc => Raised exc
      | Returned n =>
          match debug with
          | Some d => Returned (h, n, d)
          | None =>
              match app_section config with
              | Returned section =>
                  Returned (h, n, default false (app_debug section))
              | Raised exc => Raised exc
              end
          end
      end
  end.

(** The call [web_app.run(host=args.host, port=args.port, debug=args.debug)]
    of [main]: [--host] and [--port] are [None] when not given, [--debug] is
    a [store_true] flag and so always a boolean. *)
Definition main_run (config : option AppSection)
    (args_host : option string) (args_port : option Z) (args_debug : bool)
  : py_result (string * Z * bool) :=
  run_settings config args_host args_port (Some args_debug).

(** *** [DatabaseManager.get_session] *)






(** A frame without an IP layer (an ARP request). *)
Definition arp_frame : Packet :=
  {| pkt_len := 42; sniffed_on := Some "eth0";
     layer_Ether := Some ("aa:bb:cc:dd:ee:ff", "ff:ff:ff:ff:ff:ff");
     layer_IP := None; layer_IPv6 := None; layer_TCP := None;
     layer_UDP := None; layer_ICMP := false |}.

(** * Properties *)

(** ** Interface catalogue *)

Lemma first_up_find net_if_stats interfaces :
  first_up net_if_stats interfaces
  = List.find (is_up_not_loopback net_if_stats) interfaces.
Proof.
  induction interfaces as [|i rest IH]; [reflexivity|].
  cbn [first_up List.find]. unfold is_up_not_loopback at 1.
  destruct (is_loopback i); cbn [negb andb]; [exact IH|].
  destruct (net_if_stats i) as [| |[|]]; auto.
Qed.

Lemma first_non_loopback_find interfaces :
  first_non_loopback interfaces
  = List.find (fun i => negb (is_loopback i)) interfaces.
Proof.
  induction interfaces as [|i rest IH]; [reflexivity|].
  cbn [first_non_loopback List.find]. destruct (negb (is_loopback i)); auto.
Qed.

(** The claim of C6 fails where the interface list is empty: the specified
    result is the error [NoInterfacesError], the code returns the name
    ["eth0"]. *)
Lemma auto_select_empty_list_returns_eth0 :
  AutoSelect_spec [] (fun _ => ProbeAbsent) = Raised "NoInterfacesError" /\
  auto_select_interface (Returned []) (fun _ => ProbeAbsent) = "eth0" /\
  Returned (auto_select_interface (Returned []) (fun _ => ProbeAbsent))
  <> AutoSelect_spec [] (fun _ => ProbeAbsent).
Proof. repeat split. discriminate. Qed.

(** C6, amended: [auto_select_interface] returns the first interface that is
    reported up and is not loopback; if none qualifies, the first
    non-loopback interface; if none, the first entry of the list; and on an
    empty list (also when the enumeration raised) it returns ["eth0"]. *)
Theorem auto_select_interface_order get_if_list net_if_stats :
  Returned (auto_select_interface get_if_list net_if_stats)
  = match AutoSelect_spec (get_available_interfaces get_if_list) net_if_stats with
    | Returned interface => Returned interface
    | Raised _ => Returned "eth0"
    end.
Proof.
  unfold auto_select_interface, AutoSelect_spec.
  rewrite first_up_find, first_non_loopback_find.
  destruct (List.find _ _); [reflexivity|].
  destruct (List.find _ _); [reflexivity|].
  destruct (get_available_interfaces get_if_list); reflexivity.
Qed.

(** ** Flow key *)

Lemma string_ltb_asym a b : String.ltb a b = true -> String.ltb b a = false.
Proof.
  unfold String.ltb. rewrite (String.compare_antisym b a).
  destruct (String.compare a b); cbn; congruence.
Qed.

Lemma string_ltb_irrefl a : String.ltb a a = false.
Proof.
  destruct (String.ltb a a) eqn:E; [|reflexivity].
  pose proof (string_ltb_asym _ _ E). congruence.
Qed.

Lemma string_ltb_total a b :
  String.ltb a b = false -> a <> b -> String.ltb b a = true.
Proof.
  unfold String.ltb. rewrite (String.compare_antisym b a).
  destruct (String.compare a b) eqn:E; cbn; try congruence.
  intros _ Hne. apply String.compare_eq_iff in E. contradiction.
Qed.

Lemma py_lt_swap a b :
  match py_lt a b, py_lt b a with
  | Returned x, Returned y => x = true -> y = false
  | Raised e1, Raised e2 => e1 = e2
  | _, _ => False
  end.
Proof.
  destruct a as [x|], b as [y|]; cbn; try reflexivity.
  intros H. apply Z.ltb_lt in H. apply Z.ltb_ge. lia.
Qed.

Lemma source_first_defined p :
  src_ip p <> dst_ip p \/ (is_Some (src_port p) /\ is_Some (dst_port p)) ->
  exists b, source_first p = Returned b.
Proof.
  unfold source_first. intros H.
  destruct (String.ltb _ _); [eauto|].
  destruct (String.eqb_spec (src_ip p) (dst_ip p)) as [Heq|Hne]; [|eauto].
  destruct H as [H|[[x Hx] [y Hy]]]; [contradiction|].
  rewrite Hx, Hy. cbn. eauto.
Qed.

(** C3: for the two directions of the same conversation [_create_flow_id]
    gives one and the same result, and that result is a key whenever the
    addresses differ or both ports are integers (the remaining case, where
    both directions raise alike, is the subject of C10). *)
Theorem flow_key_symmetric md5_hexdigest (p q : PacketInfo) :
  reverse_direction p q ->
  _create_flow_id md5_hexdigest q = _create_flow_id md5_hexdigest p /\
  (src_ip p <> dst_ip p \/ (is_Some (src_port p) /\ is_Some (dst_port p)) ->
   exists key, _create_flow_id md5_hexdigest p = Returned key /\
               _create_flow_id md5_hexdigest q = Returned key).
Proof.
  intros (Hs & Hd & Hsp & Hdp & Hpr).
  assert (Hsym : _create_flow_id md5_hexdigest q = _create_flow_id md5_hexdigest p).
  { unfold _create_flow_id, source_first. rewrite Hs, Hd, Hsp, Hdp, Hpr.
    destruct (String.ltb (src_ip p) (dst_ip p)) eqn:Hlt.
    - rewrite (string_ltb_asym _ _ Hlt).
      destruct (String.eqb_spec (dst_ip p) (src_ip p)) as [Heq|_]; [|reflexivity].
      rewrite Heq, string_ltb_irrefl in Hlt. discriminate.
    - destruct (String.eqb_spec (src_ip p) (dst_ip p)) as [Heq|Hne].
      + rewrite Heq, string_ltb_irrefl, String.eqb_refl.
        pose proof (py_lt_swap (src_port p) (dst_port p)) as Hsw.
        destruct (src_port p) as [x|], (dst_port p) as [y|]; cbn in *;
          try reflexivity.
        destruct (x <? y) eqn:Hxy.
        * rewrite (Hsw eq_refl). reflexivity.
        * destruct (y <? x) eqn:Hyx; [reflexivity|].
          apply Z.ltb_ge in Hxy, Hyx. assert (x = y) by lia. subst. reflexivity.
      + rewrite (string_ltb_total _ _ Hlt Hne). reflexivity. }
  split; [exact Hsym|].
  intros Hdef. destruct (source_first_defined p Hdef) as [b Hb].
  rewrite Hsym. unfold _create_flow_id. rewrite Hb. destruct b; eauto.
Qed.

(** The symmetry at a TCP packet from 10.0.0.1:1234 to 10.0.0.2:80 and its
    answer. *)
Lemma flow_key_symmetric_witness :
  reverse_direction tcp_forward tcp_backward /\
  _create_flow_id (fun s => s) tcp_backward = _create_flow_id (fun s => s) tcp_forward /\
  (src_ip tcp_forward <> dst_ip tcp_forward \/
   (is_Some (src_port tcp_forward) /\ is_Some (dst_port tcp_forward)) ->
   exists key, _create_flow_id (fun s => s) tcp_forward = Returned key /\
               _create_flow_id (fun s => s) tcp_backward = Returned key).
Proof.
  split.
  - repeat split; reflexivity.
  - apply (flow_key_symmetric (fun s => s) tcp_forward tcp_backward).
    repeat split; reflexivity.
Defined.

Example flow_key_of_tcp_forward :
  _create_flow_id (fun s => s) tcp_backward
  = Returned "10.0.0.1:1234-10.0.0.2:80-TCP".
Proof. vm_compute. reflexivity. Qed.

(** ** Control surface *)

Example started_on_wlan0 :
  started =
  {| is_running := true;
     capture_thread := Some (CaptureThread "wlan0" None);
     processor_thread := Some ProcessorThread;
     packet_queue := [];
     stats := {| packets_captured := 0; packets_processed := 0;
                 packets_dropped := 0; bytes_captured := 0;
                 stats_start_time := Some 1000000 |};
     active_flows := ∅ |}.
Proof. reflexivity. Qed.

(** The claim of C5 fails on a running engine: the second [start_capture]
    returns normally, no [AlreadyRunningError] is raised. *)
Lemma start_twice_returns_normally :
  is_running started = true /\
  (start_capture lab_host (Some "eth0") None started).1.1 = Returned tt /\
  (start_capture lab_host (Some "eth0") None started).1.1
  <> Raised "AlreadyRunningError".
Proof. repeat split. discriminate. Qed.

(** C5, amended: [start_capture] on an engine that is already running logs
    the warning "Packet capture is already running" and returns normally (no
    exception), leaving the engine (running flag, threads, queue, statistics,
    flow table) unchanged. *)
Theorem start_capture_when_running host interface packet_filter (e : Engine) :
  is_running e = true ->
  start_capture host interface packet_filter e
  = (Returned tt, e, [(WARNING, "Packet capture is already running")]).
Proof. intros H. unfold start_capture. rewrite H. reflexivity. Qed.

(** A second start on the engine started on wlan0. *)
Lemma start_capture_when_running_witness :
  is_running started = true /\
  start_capture lab_host (Some "eth0") None started
  = (Returned tt, started, [(WARNING, "Packet capture is already running")]).
Proof.
  split; [reflexivity|].
  apply (start_capture_when_running lab_host (Some "eth0") None started).
  reflexivity.
Defined.

(** The claim of C4 fails for an interface name the host does not have:
    [start_capture] returns normally, sets the running flag and spawns both
    workers. *)
Lemma start_on_missing_interface_spawns :
  let result := start_capture lab_host (Some "nope0") None init in
  ~ (result.1.1 = Raised "InterfaceError" /\
     is_running result.1.2 = false /\
     capture_thread result.1.2 = None /\
     processor_thread result.1.2 = None) /\
  result.1.1 = Returned tt /\
  is_running result.1.2 = true /\
  capture_thread result.1.2 = Some (CaptureThread "nope0" None) /\
  processor_thread result.1.2 = Some ProcessorThread.
Proof. cbn. repeat split. intros [H _]. discriminate. Qed.

(** C4, amended: when the capture source cannot be opened, [start_capture]
    on a stopped engine still returns normally with the running flag set and
    both worker threads spawned; the failure is raised by [sniff] inside the
    capture thread, where [_capture_packets] logs it and sets the running
    flag back to false; the caller sees no error, the thread references and
    the statistics stay as [start_capture] left them. *)
Theorem start_capture_open_failure host name packet_filter (e : Engine) :
  is_running e = false ->
  name <> "auto" ->
  exists e',
    start_capture host (Some name) packet_filter e
    = (Returned tt, e',
       [(INFO, "Starting packet capture on interface: " +:+ name);
        (INFO, "Packet capture started successfully")]) /\
    is_running e' = true /\
    capture_thread e' = Some (CaptureThread name packet_filter) /\
    processor_thread e' = Some ProcessorThread /\
    _capture_packets (SniffRaises []) e'
    = (set_running false e', [(ERROR, "Error in packet capture")]).
Proof.
  intros Hstopped Hname. unfold start_capture. rewrite Hstopped.
  destruct (String.eqb_spec name "auto") as [->|_]; [contradiction|].
  eexists. split; [reflexivity|]. repeat split.
Qed.

(** A start on the interface name nope0, which the host does not have. *)
Lemma start_capture_open_failure_witness :
  is_running init = false /\
  "nope0" <> "auto" /\
  exists e',
    start_capture lab_host (Some "nope0") None init
    = (Returned tt, e',
       [(INFO, "Starting packet capture on interface: " +:+ "nope0");
        (INFO, "Packet capture started successfully")]) /\
    is_running e' = true /\
    capture_thread e' = Some (CaptureThread "nope0" None) /\
    processor_thread e' = Some ProcessorThread /\
    _capture_packets (SniffRaises []) e'
    = (set_running false e', [(ERROR, "Error in packet capture")]).
Proof.
  split; [reflexivity|]. split; [discriminate|].
  apply (start_capture_open_failure lab_host "nope0" None init);
    [reflexivity|discriminate].
Defined.

(** The claim of C9 fails when neither worker ends within its five seconds:
    [stop_capture] reports no fault and its result is the one of an ordinary
    stop. *)
Lemma stop_with_leaked_workers_is_silent :
  ~ reports_fault (stop_capture both_leaked started) /\
  stop_capture both_leaked started = stop_capture both_ended started.
Proof.
  split; [|reflexivity].
  intros [[exc H]|(level & message & Hin & Hlevel)].
  - discriminate.
  - cbn in Hin. apply elem_of_cons in Hin as [Hin|Hin].
    + inversion Hin; subst. contradiction.
    + apply list_elem_of_singleton in Hin. inversion Hin; subst. contradiction.
Qed.

(** C9, amended: [stop_capture] on a running engine clears the running flag,
    waits at most five seconds for each worker and then returns normally
    with the two [INFO] entries of an ordinary stop, whether or not the
    workers have ended; a worker still running after its wait is not
    reported. *)
Theorem stop_capture_ignores_join_timeout joins (e : Engine) :
  is_running e = true ->
  stop_capture joins e
  = (Returned tt, set_running false e,
     [(INFO, "Stopping packet capture..."); (INFO, "Packet capture stopped")]).
Proof.
  intros H. unfold stop_capture. rewrite H. cbn [negb].
  destruct (capture_thread (set_running false e)), (processor_thread (set_running false e));
    reflexivity.
Qed.

(** A stop of the started engine with neither worker ending in time. *)
Lemma stop_capture_ignores_join_timeout_witness :
  is_running started = true /\
  stop_capture both_leaked started
  = (Returned tt, set_running false started,
     [(INFO, "Stopping packet capture..."); (INFO, "Packet capture stopped")]).
Proof.
  split; [reflexivity|].
  apply (stop_capture_ignores_join_timeout both_leaked started). reflexivity.
Defined.

(** ** Statistics *)

Lemma float_gt_int_total_seconds d :
  float_gt_int (total_seconds d) 0 = (0 <? d).
Proof.
  unfold float_gt_int, total_seconds, Qle_bool. cbn.
  destruct (Z.leb_spec (d * 1) 0), (Z.ltb_spec 0 d); cbn; try reflexivity; lia.
Qed.

(** The claim of C8 fails on an engine that was never started: the snapshot
    has no [packets_per_second] entry at all (nor [runtime_seconds]), so the
    field is not equal to 0. *)
Lemma statistics_before_first_start_lack_rate :
  get_statistics 5000000 init !! "packets_per_second" = None /\
  get_statistics 5000000 init !! "packets_per_second" <> Some (VInt 0) /\
  get_statistics 5000000 init !! "runtime_seconds" = None /\
  get_statistics 5000000 init !! "packets_captured" = Some (VInt 0).
Proof. repeat split. discriminate. Qed.

(** C8, amended: once the engine has been started (its start time is set,
    also after a later stop) every call of [get_statistics] returns a snapshot
    whose [packets_per_second] is captured / elapsed seconds when the elapsed
    time is positive and 0 otherwise; on an engine that was never started the
    snapshot has no [packets_per_second] entry. *)
Theorem get_statistics_rate now (e : Engine) :
  get_statistics now e !! "packets_per_second"
  = match stats_start_time (stats e) with
    | Some started =>
        Some (if 0 <? now - started
              then VFloat (inject_Z (packets_captured (stats e))
                           / total_seconds (now - started))
              else VInt 0)
    | None => None
    end.
Proof.
  unfold get_statistics. destruct (stats_start_time (stats e)) as [started|].
  - rewrite lookup_insert_eq, float_gt_int_total_seconds. reflexivity.
  - repeat (rewrite lookup_insert_ne by discriminate). apply lookup_empty.
Qed.

Example rate_after_two_seconds :
  get_statistics 3000000
    (foldl (fun e packet => packet_handler packet e) started
       (replicate 5 {| pkt_len := 64; sniffed_on := None; layer_Ether := None;
                       layer_IP := None; layer_IPv6 := None; layer_TCP := None;
                       layer_UDP := None; layer_ICMP := false |}))
    !! "packets_per_second"
  = Some (VFloat (5 / (2000000 # 1000000))).
Proof. vm_compute. reflexivity. Qed.

(** ** Queue and counters *)

Lemma qsize_app queue packet : qsize (queue ++ [packet]) = qsize queue + 1.
Proof. unfold qsize. rewrite length_app. cbn. lia. Qed.

Lemma full_spec queue : full queue = (maxsize <=? qsize queue).
Proof. reflexivity. Qed.

Lemma packet_handler_balanced packet e :
  counters_balanced e -> counters_balanced (packet_handler packet e).
Proof.
  unfold counters_balanced, packet_handler. intros [Hsum Hmax].
  destruct (is_running e); cbn [negb]; [|auto].
  rewrite full_spec. destruct (Z.leb_spec maxsize (qsize (packet_queue e)));
    cbn [negb packet_queue stats packets_captured packets_processed].
  - auto.
  - rewrite qsize_app. lia.
Qed.

Lemma start_capture_balanced host interface packet_filter e :
  counters_balanced e ->
  counters_balanced (start_capture host interface packet_filter e).1.2.
Proof. unfold start_capture. destruct (is_running e); auto. Qed.

Lemma stop_capture_balanced joins e :
  counters_balanced e -> counters_balanced (stop_capture joins e).1.2.
Proof.
  unfold stop_capture. destruct (is_running e); cbn [negb]; [|auto].
  destruct (capture_thread _), (processor_thread _); auto.
Qed.

Lemma process_turn_balanced md5_hexdigest get_db_session clock e env :
  counters_balanced e ->
  counters_balanced
    (_process_packets_turn md5_hexdigest get_db_session clock e env).1.
Proof.
  unfold counters_balanced, _process_packets_turn. intros [Hsum Hmax].
  destruct (packet_queue e) as [|packet rest] eqn:Hq.
  - cbn [fst]. rewrite Hq. auto.
  - destruct (_analyze_packet _ _ _ _ _ _). cbn. unfold qsize in *.
    cbn [length] in *. lia.
Qed.

Lemma step_balanced md5_hexdigest get_db_session w ev :
  counters_balanced w.1 ->
  counters_balanced (step md5_hexdigest get_db_session w ev).1.
Proof.
  intros H. destruct ev as [host interface packet_filter|joins|packet| |clock];
    cbn [step].
  - pose proof (start_capture_balanced host interface packet_filter _ H) as H'.
    destruct (start_capture _ _ _ _) as [[? ?] ?]. exact H'.
  - pose proof (stop_capture_balanced joins _ H) as H'.
    destruct (stop_capture _ _) as [[? ?] ?]. exact H'.
  - apply packet_handler_balanced, H.
  - exact H.
  - apply process_turn_balanced, H.
Qed.

Lemma run_balanced md5_hexdigest get_db_session events w :
  counters_balanced w.1 ->
  counters_balanced (run md5_hexdigest get_db_session events w).1.
Proof.
  revert w. induction events as [|ev events IH]; intros w H; [exact H|].
  cbn. apply IH, step_balanced, H.
Qed.

Lemma run_frames md5_hexdigest get_db_session frames e env :
  run md5_hexdigest get_db_session (map FrameArrives frames) (e, env)
  = (foldl (fun e packet => packet_handler packet e) e frames, env).
Proof.
  revert e. induction frames as [|packet frames IH]; intros e; [reflexivity|].
  cbn. apply IH.
Qed.

(** A burst of frames on a running engine with no turn of the consumer in
    between: the queue fills up to [maxsize], frames that fit are counted as
    captured, the others as dropped. *)
Lemma packet_handler_running packet e :
  is_running e = true -> is_running (packet_handler packet e) = true.
Proof.
  intros Hrun. unfold packet_handler. rewrite Hrun. cbn [negb].
  destruct (full _); reflexivity.
Qed.

Lemma packet_handler_counters packet e :
  is_running e = true ->
  qsize (packet_queue e) <= maxsize ->
  let e' := packet_handler packet e in
  qsize (packet_queue e') = Z.min maxsize (qsize (packet_queue e) + 1) /\
  packets_captured (stats e')
  = packets_captured (stats e) + (qsize (packet_queue e') - qsize (packet_queue e)) /\
  packets_dropped (stats e')
  = packets_dropped (stats e) + 1 - (qsize (packet_queue e') - qsize (packet_queue e)) /\
  packets_processed (stats e') = packets_processed (stats e).
Proof.
  intros Hrun Hmax. unfold packet_handler. rewrite Hrun. cbn [negb].
  rewrite full_spec.
  destruct (Z.leb_spec maxsize (qsize (packet_queue e)));
    cbn [negb packet_queue stats packets_captured packets_processed
         packets_dropped]; try rewrite qsize_app; repeat split; lia.
Qed.

Lemma burst_counters frames : forall e,
  is_running e = true ->
  qsize (packet_queue e) <= maxsize ->
  let e' := foldl (fun e packet => packet_handler packet e) e frames in
  is_running e' = true /\
  qsize (packet_queue e')
  = Z.min maxsize (qsize (packet_queue e) + Z.of_nat (length frames)) /\
  packets_captured (stats e')
  = packets_captured (stats e)
    + (qsize (packet_queue e') - qsize (packet_queue e)) /\
  packets_dropped (stats e')
  = packets_dropped (stats e) + Z.of_nat (length frames)
    - (qsize (packet_queue e') - qsize (packet_queue e)) /\
  packets_processed (stats e') = packets_processed (stats e).
Proof.
  induction frames as [|packet frames IH]; intros e Hrun Hmax.
  - cbn [foldl length]. repeat split; try lia. exact Hrun.
  - cbn [foldl length].
    destruct (packet_handler_counters packet e Hrun Hmax) as (G1 & G2 & G3 & G4).
    assert (Hmax' : qsize (packet_queue (packet_handler packet e)) <= maxsize)
      by lia.
    destruct (IH _ (packet_handler_running packet e Hrun) Hmax')
      as (H1 & H2 & H3 & H4 & H5).
    split; [exact H1|]. rewrite H2, H3, H4, H5. repeat split; lia.
Qed.

Lemma start_capture_from_init host interface packet_filter :
  let e := (start_capture host interface packet_filter init).1.2 in
  is_running e = true /\ packet_queue e = [] /\
  packets_captured (stats e) = 0 /\ packets_dropped (stats e) = 0 /\
  packets_processed (stats e) = 0.
Proof. cbn. repeat split. Qed.

Lemma step_start_engine md5_hexdigest get_db_session host interface packet_filter w :
  (step md5_hexdigest get_db_session w (CallStart host interface packet_filter)).1
  = (start_capture host interface packet_filter w.1).1.2.
Proof. cbn [step]. destruct (start_capture _ _ _ _) as [[? ?] ?]. reflexivity. Qed.

Lemma burst_after_start md5_hexdigest get_db_session host interface packet_filter
    frames :
  let e := (run md5_hexdigest get_db_session
              (CallStart host interface packet_filter :: map FrameArrives frames)
              (init, no_output)).1 in
  qsize (packet_queue e) = Z.min maxsize (Z.of_nat (length frames)) /\
  packets_captured (stats e) = Z.min maxsize (Z.of_nat (length frames)) /\
  packets_dropped (stats e)
  = Z.of_nat (length frames) - Z.min maxsize (Z.of_nat (length frames)) /\
  packets_processed (stats e) = 0.
Proof.
  unfold run. cbn [foldl].
  pose proof (step_start_engine md5_hexdigest get_db_session host interface
                packet_filter (init, no_output)) as Hstart.
  destruct (step md5_hexdigest get_db_session (init, no_output)
              (CallStart host interface packet_filter)) as [e0 env0].
  cbn [fst] in Hstart.
  destruct (start_capture_from_init host interface packet_filter)
    as (Hrun & Hq & Hc & Hd & Hp).
  rewrite <- Hstart in Hrun, Hq, Hc, Hd, Hp. clear Hstart.
  fold (run md5_hexdigest get_db_session (map FrameArrives frames) (e0, env0)).
  rewrite run_frames. cbn [fst].
  assert (Hmax : qsize (packet_queue e0) <= maxsize)
    by (rewrite Hq; unfold qsize, maxsize; cbn [length]; lia).
  destruct (burst_counters frames e0 Hrun Hmax) as (_ & H2 & H3 & H4 & H5).
  cbv zeta in *. rewrite H3, H4, H5, H2, Hc, Hd, Hp, Hq.
  change (qsize []) with 0. repeat split; lia.
Qed.

(** The claim of C1 fails after the burst of scenario D: the dropped frame is
    not counted as captured, so [captured] is 10000, not 10001, and
    dropped + processed + queue depth exceeds it by one. *)
Lemma burst_breaks_claimed_balance :
  let e := (run (fun s => s) connection_get_db_session scenario_D
              (init, no_output)).1 in
  ~ (packets_dropped (stats e) + packets_processed (stats e)
     + qsize (packet_queue e) = packets_captured (stats e) /\
     packets_dropped (stats e) = 1 /\
     packets_captured (stats e) = 10001) /\
  packets_dropped (stats e) = 1 /\
  packets_captured (stats e) = 10000 /\
  packets_processed (stats e) = 0 /\
  qsize (packet_queue e) = 10000.
Proof.
  destruct (burst_after_start (fun s => s) connection_get_db_session lab_host
              (Some "auto") None (replicate (Z.to_nat 10001) icmp_frame))
    as (H1 & H2 & H3 & H4).
  rewrite length_replicate in *. unfold maxsize in *.
  change (run (fun s => s) connection_get_db_session
            (CallStart lab_host (Some "auto") None
             :: map FrameArrives (replicate (Z.to_nat 10001) icmp_frame))
            (init, no_output))
    with (run (fun s => s) connection_get_db_session scenario_D (init, no_output))
    in *.
  cbv zeta. rewrite H1, H2, H3, H4. repeat split; try lia.
Qed.

(** C1, amended: at every quiescent point of every run of the engine,
    processed + queue depth = captured (a dropped frame is counted in
    [packets_dropped] only, never in [packets_captured]) and the queue holds
    at most 10,000 frames; in particular after a burst of 10,001 frames on a
    freshly started engine with no consumption, dropped = 1 and
    captured = 10000. *)
Theorem counters_at_quiescence md5_hexdigest get_db_session events
    host interface packet_filter frames :
  Z.of_nat (length frames) = 10001 ->
  counters_balanced
    (run md5_hexdigest get_db_session events (init, no_output)).1 /\
  let e := (run md5_hexdigest get_db_session
              (CallStart host interface packet_filter :: map FrameArrives frames)
              (init, no_output)).1 in
  packets_dropped (stats e) = 1 /\
  packets_captured (stats e) = 10000 /\
  qsize (packet_queue e) = 10000.
Proof.
  intros Hlen. split.
  - apply run_balanced.
    split; unfold init, qsize, maxsize;
      cbn [fst stats packet_queue packets_processed packets_captured length]; lia.
  - destruct (burst_after_start md5_hexdigest get_db_session host interface
                packet_filter frames) as (H1 & H2 & H3 & H4).
    cbv zeta. rewrite H1, H2, H3, Hlen. unfold maxsize. repeat split; lia.
Qed.

(** ** The idle sweep *)

Lemma expired_spec current_time flow :
  expired current_time flow = (300000000 <? current_time - last_seen flow).
Proof.
  unfold expired, float_gt_int, total_seconds, flow_timeout, Qle_bool. cbn.
  destruct (Z.leb_spec ((current_time - last_seen flow) * 1) 300000000),
           (Z.ltb_spec 300000000 (current_time - last_seen flow));
    cbn; try reflexivity; lia.
Qed.

Section Sweep.

Variable get_db_session : session_source.

Lemma store_flow_session_db time_diff flow env :
  db (store_flow_session get_db_session time_diff flow env) = db env \/
  db (store_flow_session get_db_session time_diff flow env)
  = db env ++ [FlowRow (flow_record time_diff flow)].
Proof.
  unfold store_flow_session, with_db_session.
  destruct get_db_session as [|commit]; [left; reflexivity|].
  destruct (commit _ _); [right|left]; reflexivity.
Qed.

Lemma sweep_item_due current_time acc item :
  expired current_time item.2 = true ->
  sweep_item get_db_session current_time acc item
  = (acc.1 ++ [item.1],
     store_flow_session get_db_session
       (total_seconds (current_time - last_seen item.2)) item.2 acc.2).
Proof. unfold sweep_item, expired. intros ->. reflexivity. Qed.

Lemma sweep_item_fresh current_time acc item :
  expired current_time item.2 = false ->
  sweep_item get_db_session current_time acc item = acc.
Proof. unfold sweep_item, expired. intros ->. reflexivity. Qed.

Lemma sweep_keys current_time items : forall acc,
  (foldl (sweep_item get_db_session current_time) acc items).1
  = acc.1 ++ map fst (due current_time items).
Proof.
  induction items as [|item items IH]; intros acc; cbn [foldl due List.filter map].
  - symmetry. apply app_nil_r.
  - fold (due current_time items).
    destruct (expired current_time item.2) eqn:Hdue.
    + rewrite (sweep_item_due _ _ _ Hdue), IH. cbn [fst map].
      rewrite <- app_assoc. reflexivity.
    + rewrite (sweep_item_fresh _ _ _ Hdue). apply IH.
Qed.

Lemma sweep_rows current_time items : forall acc,
  exists kept,
    kept `sublist_of` map (due_record current_time) (due current_time items) /\
    db (foldl (sweep_item get_db_session current_time) acc items).2
    = db acc.2 ++ map FlowRow kept.
Proof.
  induction items as [|item items IH]; intros acc; cbn [foldl due List.filter map].
  - exists []. split; [constructor|]. cbn. symmetry. apply app_nil_r.
  - fold (due current_time items).
    destruct (expired current_time item.2) eqn:Hdue.
    + rewrite (sweep_item_due _ _ _ Hdue).
      destruct (IH (acc.1 ++ [item.1],
                    store_flow_session get_db_session
                      (total_seconds (current_time - last_seen item.2)) item.2 acc.2))
        as (kept & Hsub & Hdb).
      cbn [snd map] in *.
      destruct (store_flow_session_db
                  (total_seconds (current_time - last_seen item.2)) item.2 acc.2)
        as [Hsame|Hmore].
      * exists kept. split; [apply sublist_cons, Hsub|]. rewrite Hdb, Hsame.
        reflexivity.
      * exists (due_record current_time item :: kept).
        split; [apply sublist_skip, Hsub|]. rewrite Hdb, Hmore.
        rewrite <- app_assoc. reflexivity.
    + rewrite (sweep_item_fresh _ _ _ Hdue). apply IH.
Qed.

Lemma sweep_log_grows current_time items : forall acc,
  exists entries,
    log (foldl (sweep_item get_db_session current_time) acc items).2
    = log acc.2 ++ entries.
Proof.
  induction items as [|item items IH]; intros acc; cbn [foldl].
  - exists []. symmetry. apply app_nil_r.
  - destruct (IH (sweep_item get_db_session current_time acc item))
      as (entries & Hlog).
    rewrite Hlog. unfold sweep_item.
    destruct (float_gt_int _ _); [|eauto].
    cbn [snd]. unfold store_flow_session.
    destruct (with_db_session _ _ _) as [[?|?] ?]; cbn [log write_log].
    + eauto.
    + rewrite <- app_assoc. eauto.
Qed.

End Sweep.

Lemma foldl_delete_lookup (keys : list string) : forall (flows : gmap string Flow) key,
  foldl (fun flows flow_id => delete flow_id flows) flows keys !! key
  = if bool_decide (key ∈ keys) then None else flows !! key.
Proof.
  induction keys as [|k keys IH]; intros flows key; cbn [foldl].
  - rewrite bool_decide_eq_false_2; [reflexivity|]. apply not_elem_of_nil.
  - rewrite IH. destruct (decide (key ∈ keys)) as [Hin|Hout].
    + rewrite !bool_decide_eq_true_2; [reflexivity| |exact Hin].
      apply elem_of_cons. right. exact Hin.
    + rewrite (bool_decide_eq_false_2 _ Hout).
      destruct (decide (key = k)) as [->|Hne].
      * rewrite bool_decide_eq_true_2 by (apply elem_of_cons; left; reflexivity).
        apply lookup_delete_eq.
      * rewrite bool_decide_eq_false_2.
        -- apply lookup_delete_ne. congruence.
        -- intros [?|?]%elem_of_cons; contradiction.
Qed.

Lemma due_keys current_time (flows : gmap string Flow) key :
  key ∈ map fst (due current_time (map_to_list flows)) <->
  exists flow, flows !! key = Some flow /\ expired current_time flow = true.
Proof.
  unfold due. split.
  - intros Hin. apply list_elem_of_In, in_map_iff in Hin.
    destruct Hin as ([k flow] & Hk & Hin). cbn in Hk. subst k.
    apply filter_In in Hin as [Hin Hdue]. apply list_elem_of_In in Hin.
    apply elem_of_map_to_list in Hin. eauto.
  - intros (flow & Hlook & Hdue). apply list_elem_of_In, in_map_iff.
    exists (key, flow). split; [reflexivity|]. apply filter_In. split; [|exact Hdue].
    apply list_elem_of_In, elem_of_map_to_list, Hlook.
Qed.

Lemma cleanup_keys get_db_session current_time flows env :
  _cleanup_old_flows get_db_session current_time flows env
  = (foldl (fun flows flow_id => delete flow_id flows) flows
       (map fst (due current_time (map_to_list flows))),
     (foldl (sweep_item get_db_session current_time) ([], env)
        (map_to_list flows)).2).
Proof.
  unfold _cleanup_old_flows.
  pose proof (sweep_keys get_db_session current_time (map_to_list flows) ([], env))
    as Hkeys.
  destruct (foldl (sweep_item get_db_session current_time) _ _) as [keys env'].
  cbn [fst snd app] in *. rewrite Hkeys. reflexivity.
Qed.

(** The sweep removes exactly the flows it finds idle. *)
Lemma cleanup_lookup get_db_session current_time flows env key :
  (_cleanup_old_flows get_db_session current_time flows env).1 !! key
  = match flows !! key with
    | Some flow => if expired current_time flow then None else Some flow
    | None => None
    end.
Proof.
  rewrite cleanup_keys. cbn [fst]. rewrite foldl_delete_lookup.
  destruct (decide (key ∈ map fst (due current_time (map_to_list flows))))
    as [Hin|Hout].
  - rewrite (bool_decide_eq_true_2 _ Hin).
    apply due_keys in Hin as (flow & -> & ->). reflexivity.
  - rewrite (bool_decide_eq_false_2 _ Hout).
    destruct (flows !! key) as [flow|] eqn:Hlook; [|reflexivity].
    destruct (expired current_time flow) eqn:Hdue; [|reflexivity].
    exfalso. apply Hout, due_keys. eauto.
Qed.

(** The rows a sweep adds to the database are flow sessions of flows it found
    idle, each at most once, in the order it met them. *)
Lemma cleanup_rows get_db_session current_time flows env :
  exists kept,
    kept `sublist_of`
      map (due_record current_time) (due current_time (map_to_list flows)) /\
    new_rows env (_cleanup_old_flows get_db_session current_time flows env).2
    = map FlowRow kept.
Proof.
  rewrite cleanup_keys. cbn [snd].
  destruct (sweep_rows get_db_session current_time (map_to_list flows) ([], env))
    as (kept & Hsub & Hdb).
  exists kept. split; [exact Hsub|].
  unfold new_rows. rewrite Hdb. cbn [snd]. apply drop_app_length.
Qed.

(** ** Emission of flow sessions *)

Lemma sublist_map {A B} (f : A -> B) (l1 l2 : list A) :
  l1 `sublist_of` l2 -> map f l1 `sublist_of` map f l2.
Proof. induction 1; cbn; constructor; assumption. Qed.

Lemma due_sublist current_time items :
  due current_time items `sublist_of` items.
Proof.
  induction items as [|item items IH]; cbn; [constructor|].
  destruct (expired current_time item.2); constructor; exact IH.
Qed.

Lemma flow_sessions_of_rows key kept :
  flow_sessions_of key (map FlowRow kept)
  = List.filter (fun r => String.eqb (fs_session_id r) key) kept.
Proof.
  unfold flow_sessions_of. induction kept as [|r kept IH]; [reflexivity|].
  cbn. destruct (String.eqb (fs_session_id r) key); cbn; rewrite <- IH; reflexivity.
Qed.

Lemma filter_key_nodup {A} (g : A -> string) key (l : list A) :
  NoDup (map g l) ->
  (length (List.filter (fun x => String.eqb (g x) key) l) <= 1)%nat.
Proof.
  induction l as [|x l IH]; cbn; [lia|].
  intros Hnd. apply NoDup_cons in Hnd as [Hx Hnd].
  destruct (String.eqb_spec (g x) key) as [Heq|_]; [|auto].
  assert (Hnone : List.filter (fun x => String.eqb (g x) key) l = []).
  { clear IH Hnd. induction l as [|y l IH]; [reflexivity|]. cbn in *.
    destruct (String.eqb_spec (g y) key) as [Hy|_].
    - exfalso. apply Hx. rewrite Heq, <- Hy. apply elem_of_cons. left. reflexivity.
    - apply IH. intros Hin. apply Hx. apply elem_of_cons. right. exact Hin. }
  rewrite Hnone. cbn. lia.
Qed.

Lemma due_records_session_ids current_time (flows : gmap string Flow) :
  keyed_by_session_id flows ->
  map fs_session_id
    (map (due_record current_time) (due current_time (map_to_list flows)))
  = map fst (due current_time (map_to_list flows)).
Proof.
  intros Hkeyed. rewrite map_map. apply map_ext_in.
  intros [key flow] Hin. cbn. apply Hkeyed.
  apply filter_In in Hin as [Hin _].
  apply elem_of_map_to_list, list_elem_of_In, Hin.
Qed.

(** One sweep writes at most one flow session per key, and a session it
    writes is the record of the idle flow filed under that key. *)
Lemma sweep_emits_once get_db_session current_time flows env key :
  keyed_by_session_id flows ->
  let emitted :=
    flow_sessions_of key
      (new_rows env (_cleanup_old_flows get_db_session current_time flows env).2) in
  (length emitted <= 1)%nat /\
  Forall (fun r => exists flow,
            flows !! key = Some flow /\ expired current_time flow = true /\
            r = flow_record (total_seconds (current_time - last_seen flow)) flow)
         emitted.
Proof.
  intros Hkeyed.
  destruct (cleanup_rows get_db_session current_time flows env)
    as (kept & Hsub & Hrows).
  cbv zeta. rewrite Hrows, flow_sessions_of_rows. split.
  - apply filter_key_nodup.
    eapply sublist_NoDup; [|apply sublist_map, Hsub].
    rewrite (due_records_session_ids _ _ Hkeyed).
    eapply sublist_NoDup; [apply (NoDup_fst_map_to_list flows)|].
    apply sublist_map, due_sublist.
  - apply List.Forall_forall. intros r Hin.
    apply filter_In in Hin as [Hin Hkey]. apply String.eqb_eq in Hkey.
    apply list_elem_of_In in Hin.
    apply (elem_of_sublist _ _ _ Hin) in Hsub.
    apply list_elem_of_In, in_map_iff in Hsub as ([k flow] & Hr & Hdue).
    apply filter_In in Hdue as [Hitem Hexp]. cbn in Hexp.
    apply list_elem_of_In, elem_of_map_to_list in Hitem.
    subst r. unfold due_record in *. cbn in *.
    rewrite (Hkeyed _ _ Hitem) in Hkey. subst k. eauto.
Qed.

Lemma tracked_keyed flows history :
  tracked flows history -> keyed_by_session_id flows.
Proof. intros H key flow Hlook. specialize (H key). rewrite Hlook in H. tauto. Qed.

Lemma record_packet_lookup flow_id current_time p (flows : gmap string Flow) key :
  record_packet flow_id current_time p flows !! key
  = if decide (flow_id = key)
    then Some match flows !! flow_id with
              | Some flow => touch_flow current_time p flow
              | None => new_flow flow_id current_time p
              end
    else flows !! key.
Proof.
  unfold record_packet.
  destruct (flows !! flow_id) as [flow|]; destruct (decide (flow_id = key)) as [->|Hne];
    first [apply lookup_insert_eq | apply lookup_insert_ne; exact Hne].
Qed.

(** After the packet is recorded and before the sweep, the flow of every key
    has counted the calls for the key up to and including this one. *)
Lemma record_packet_tracked flow_id current_time p flows history :
  tracked flows history ->
  forall key,
    match record_packet flow_id current_time p flows !! key with
    | Some flow =>
        session_id flow = key /\
        packet_count flow
        = (if bool_decide (Some flow_id = Some key) then 1 else 0)
          + ingests_since_eviction key history /\
        1 <= packet_count flow
    | None =>
        (if bool_decide (Some flow_id = Some key) then 1 else 0)
        + ingests_since_eviction key history = 0
    end.
Proof.
  intros Htracked key. rewrite record_packet_lookup.
  destruct (decide (flow_id = key)) as [->|Hne].
  - rewrite bool_decide_eq_true_2 by reflexivity.
    specialize (Htracked key). destruct (flows !! key) as [flow|]; cbn.
    + destruct Htracked as (? & ? & ?). repeat split; [assumption|lia|lia].
    + rewrite Htracked. repeat split; lia.
  - rewrite bool_decide_eq_false_2 by congruence.
    specialize (Htracked key). destruct (flows !! key) as [flow|]; cbn.
    + destruct Htracked as (? & ? & ?). repeat split; assumption.
    + exact Htracked.
Qed.

Lemma flows_to_remove_due get_db_session current_time flows env :
  flows_to_remove get_db_session current_time flows env
  = map fst (due current_time (map_to_list flows)).
Proof. unfold flows_to_remove. rewrite sweep_keys. reflexivity. Qed.

Lemma ingest_tracked md5_hexdigest get_db_session flows env history call :
  tracked flows history ->
  tracked (ingest md5_hexdigest get_db_session (flows, env, history) call).1.1
          (ingest md5_hexdigest get_db_session (flows, env, history) call).2.
Proof.
  intros Htracked. destruct call as [clock p].
  unfold ingest, _update_flow_session, observation. cbn [fst snd].
  destruct (_create_flow_id md5_hexdigest p) as [flow_id|exc].
  - intros key. rewrite cleanup_lookup, flows_to_remove_due.
    cbn [ingests_since_eviction].
    pose proof (record_packet_tracked flow_id (t_update clock) p _ _ Htracked key)
      as Hkey.
    pose proof (due_keys (t_sweep clock)
                  (record_packet flow_id (t_update clock) p flows) key) as Hdue.
    set (flows1 := record_packet flow_id (t_update clock) p flows) in *.
    destruct (flows1 !! key) as [flow|] eqn:Hlook.
    + destruct (expired (t_sweep clock) flow) eqn:Hexp.
      * rewrite bool_decide_eq_true_2; [reflexivity|]. apply Hdue. eauto.
      * rewrite bool_decide_eq_false_2; [exact Hkey|].
        intros Hin. apply Hdue in Hin as (flow' & Hflow' & Hexp').
        congruence.
    + destruct (bool_decide (key ∈ _)); [reflexivity|exact Hkey].
  - cbn [fst]. intros key. cbn [ingests_since_eviction].
    rewrite bool_decide_eq_false_2 by apply not_elem_of_nil.
    rewrite bool_decide_eq_false_2 by discriminate.
    exact (Htracked key).
Qed.

Lemma ingest_all_tracked md5_hexdigest get_db_session calls :
  tracked (ingest_all md5_hexdigest get_db_session calls).1.1
          (ingest_all md5_hexdigest get_db_session calls).2.
Proof.
  unfold ingest_all.
  assert (Hgen : forall w, tracked w.1.1 w.2 ->
            tracked (foldl (ingest md5_hexdigest get_db_session) w calls).1.1
                    (foldl (ingest md5_hexdigest get_db_session) w calls).2).
  { induction calls as [|call calls IH]; intros w Hw; [exact Hw|].
    cbn [foldl]. apply IH. destruct w as [[flows env] history].
    apply ingest_tracked, Hw. }
  apply Hgen. intros key. cbn. rewrite lookup_empty. reflexivity.
Qed.

Lemma new_rows_write_log entry env : new_rows env (write_log entry env) = [].
Proof. unfold new_rows, write_log. cbn. apply drop_all. Qed.

(** C7: in every run of the tracker, one call of [_update_flow_session]
    writes at most one flow session for a key; a session it writes carries as
    [packet_count] the number of calls seen for that key since the key was
    last evicted, this call included (at least one); with the write the key
    leaves the flow table and its count starts again from zero, so that no
    second session follows for the same idle period; and the flow filed
    under the key in the table has counted exactly the calls seen for the key
    since its last eviction. *)
Theorem single_emission_per_flow md5_hexdigest get_db_session calls clock p key :
  let w := ingest_all md5_hexdigest get_db_session calls in
  let after := _update_flow_session md5_hexdigest get_db_session clock p w.1.1 w.1.2 in
  let emitted := flow_sessions_of key (new_rows w.1.2 after.2) in
  (length emitted <= 1)%nat /\
  Forall (fun r =>
            fs_packet_count r
            = (if bool_decide (_create_flow_id md5_hexdigest p = Returned key)
               then 1 else 0)
              + ingests_since_eviction key w.2 /\
            1 <= fs_packet_count r) emitted /\
  match emitted with
  | [] => True
  | _ :: _ =>
      after.1 !! key = None /\
      ingests_since_eviction key
        (observation md5_hexdigest get_db_session clock p w.1.1 w.1.2 :: w.2) = 0
  end /\
  from_option packet_count 0 (w.1.1 !! key) = ingests_since_eviction key w.2.
Proof.
  pose proof (ingest_all_tracked md5_hexdigest get_db_session calls) as Htracked.
  destruct (ingest_all md5_hexdigest get_db_session calls) as [[flows env] history].
  cbn [fst snd] in *. cbv zeta.
  assert (Htable : from_option packet_count 0 (flows !! key)
                   = ingests_since_eviction key history).
  { specialize (Htracked key). destruct (flows !! key); cbn; [tauto|congruence]. }
  unfold _update_flow_session, observation.
  destruct (_create_flow_id md5_hexdigest p) as [flow_id|exc].
  - pose proof (record_packet_tracked flow_id (t_update clock) p _ _ Htracked)
      as Hrec.
    set (flows1 := record_packet flow_id (t_update clock) p flows) in *.
    assert (Hkeyed : keyed_by_session_id flows1).
    { intros k flow Hlook. specialize (Hrec k). rewrite Hlook in Hrec. tauto. }
    destruct (sweep_emits_once get_db_session (t_sweep clock) flows1 env key Hkeyed)
      as [Hlen Hall].
    cbv zeta in Hlen, Hall.
    set (emitted := flow_sessions_of key _) in *.
    split; [exact Hlen|]. split; [|split; [|exact Htable]].
    + eapply List.Forall_impl; [|exact Hall].
      intros r (flow & Hlook & _ & ->). cbn [flow_record fs_packet_count].
      specialize (Hrec key). rewrite Hlook in Hrec. destruct Hrec as (_ & Hcount & Hpos).
      split; [|exact Hpos]. rewrite Hcount.
      destruct (decide (flow_id = key)) as [->|Hne].
      * rewrite !bool_decide_eq_true_2 by reflexivity. reflexivity.
      * rewrite !bool_decide_eq_false_2 by congruence. reflexivity.
    + destruct emitted as [|r rest]; [exact I|].
      apply List.Forall_inv in Hall as (flow & Hlook & Hexp & _).
      split.
      * rewrite cleanup_lookup, Hlook, Hexp. reflexivity.
      * cbn [ingests_since_eviction]. rewrite flows_to_remove_due.
        rewrite bool_decide_eq_true_2; [reflexivity|]. apply due_keys. eauto.
  - cbn [snd]. rewrite new_rows_write_log.
    change (flow_sessions_of key []) with (@nil FlowSession).
    split; [cbn [length]; lia|]. split; [constructor|]. split; [exact I|exact Htable].
Qed.

(** ** The sweep on an idle flow *)

(** What a sweep writes for an idle flow, when it writes: status
    ["timeout"], the last-seen time as end time, and as duration the time the
    flow has been idle, which exceeds the timeout. *)
Lemma swept_flow_record current_time flow :
  expired current_time flow = true ->
  let r := flow_record (total_seconds (current_time - last_seen flow)) flow in
  fs_status r = "timeout" /\
  fs_end_time r = last_seen flow /\
  fs_start_time r = start_time flow /\
  fs_duration r = total_seconds (current_time - last_seen flow) /\
  (inject_Z flow_timeout < fs_duration r)%Q.
Proof.
  intros Hexp. cbn. repeat split.
  rewrite expired_spec in Hexp. apply Z.ltb_lt in Hexp.
  unfold Qlt, total_seconds, flow_timeout. cbn. lia.
Qed.

(** C2 at its failing input: the TCP conversation has been idle for 390 s
    when the next packet makes the tracker sweep at 400 s.  With
    [get_db_session] as the repository defines it the flow leaves the table
    and no flow session is written (the error is logged); with a session
    manager that commits the session is written, with status ["timeout"], end
    time 10 s and duration 390 s, the idle time, where last-seen minus start
    is 10 s. *)
Theorem idle_sweep_on_tcp_conversation :
  (let w := ingest_all (fun s => s) connection_get_db_session tcp_conversation in
   let after := _update_flow_session (fun s => s) connection_get_db_session
                  (at_time 400000000) udp_other w.1.1 w.1.2 in
   (exists flow, w.1.1 !! tcp_key = Some flow /\
                 start_time flow = 0 /\ last_seen flow = 10000000 /\
                 expired 400000000 flow = true) /\
   after.1 !! tcp_key = None /\
   new_rows w.1.2 after.2 = [] /\
   log after.2 = [(ERROR, "Error storing flow session")]) /\
  (let w := ingest_all (fun s => s) committing tcp_conversation in
   let after := _update_flow_session (fun s => s) committing
                  (at_time 400000000) udp_other w.1.1 w.1.2 in
   after.1 !! tcp_key = None /\
   exists r,
     flow_sessions_of tcp_key (new_rows w.1.2 after.2) = [r] /\
     fs_status r = "timeout" /\
     fs_start_time r = 0 /\
     fs_end_time r = 10000000 /\
     fs_packet_count r = 2 /\
     fs_duration r = total_seconds 390000000 /\
     fs_duration r <> total_seconds (fs_end_time r - fs_start_time r)).
Proof.
  split.
  - cbv zeta. split; [|vm_compute; repeat split].
    eexists. split; [vm_compute; reflexivity|]. vm_compute. repeat split.
  - cbv zeta. split; [vm_compute; reflexivity|].
    eexists. split; [vm_compute; reflexivity|].
    vm_compute. repeat split. discriminate.
Qed.

(** ** Port-less packets between equal addresses *)

Lemma store_packet_generator p env :
  _store_packet connection_get_db_session p env
  = write_log (ERROR, "Error storing packet") env.
Proof. reflexivity. Qed.

Lemma store_packet_committed commit p env :
  commit (db env) (PacketRow (packet_row p)) = true ->
  new_rows env (_store_packet (SessionManager commit) p env)
  = [PacketRow (packet_row p)].
Proof.
  intros Hok. unfold _store_packet, with_db_session. rewrite Hok.
  unfold new_rows. cbn. apply drop_app_length.
Qed.

(** C10: for a packet record without ports whose source and destination
    addresses are equal, [_create_flow_id] raises [TypeError];
    [_update_flow_session] swallows it, logs the error and leaves the flow
    table as it was (no sweep either); [_analyze_packet] has called
    [_store_packet] on the record before.  Whether that call stores the row
    is decided by [get_db_session]: with the repository's own it stores
    nothing, with a session manager whose commit succeeds it stores the
    row. *)
Theorem portless_same_address_packet md5_hexdigest get_db_session clock
    (p : PacketInfo) flows env :
  src_port p = None -> dst_port p = None -> src_ip p = dst_ip p ->
  _create_flow_id md5_hexdigest p = Raised "TypeError" /\
  _update_flow_session md5_hexdigest get_db_session clock p flows env
  = (flows, write_log (ERROR, "Error updating flow session") env) /\
  (forall packet,
     _extract_packet_info (t_extract clock) packet = Some p ->
     _analyze_packet md5_hexdigest get_db_session clock packet flows env
     = (flows, write_log (ERROR, "Error updating flow session")
                 (_store_packet get_db_session p env))) /\
  new_rows env (_store_packet connection_get_db_session p env) = [] /\
  (forall commit,
     commit (db env) (PacketRow (packet_row p)) = true ->
     new_rows env (_store_packet (SessionManager commit) p env)
     = [PacketRow (packet_row p)]).
Proof.
  intros Hsp Hdp Hip.
  assert (Hkey : _create_flow_id md5_hexdigest p = Raised "TypeError").
  { unfold _create_flow_id, source_first.
    rewrite Hip, string_ltb_irrefl, String.eqb_refl, Hsp, Hdp. reflexivity. }
  assert (Hupd : forall env',
            _update_flow_session md5_hexdigest get_db_session clock p flows env'
            = (flows, write_log (ERROR, "Error updating flow session") env')).
  { intros env'. unfold _update_flow_session. rewrite Hkey. reflexivity. }
  split; [exact Hkey|]. split; [apply Hupd|]. split; [|split].
  - intros packet Hinfo. unfold _analyze_packet. rewrite Hinfo. apply Hupd.
  - rewrite store_packet_generator. apply new_rows_write_log.
  - intros commit. apply store_packet_committed.
Qed.

Example icmp_frame_extracted :
  _extract_packet_info 0 icmp_frame = Some icmp_self.
Proof. reflexivity. Qed.

(** The ICMP echo from 127.0.0.1 to itself, on an empty flow table. *)
Lemma portless_same_address_packet_witness :
  src_port icmp_self = None /\ dst_port icmp_self = None /\
  src_ip icmp_self = dst_ip icmp_self /\
  _create_flow_id (fun s => s) icmp_self = Raised "TypeError" /\
  _update_flow_session (fun s => s) connection_get_db_session (at_time 0)
    icmp_self ∅ no_output
  = (∅, write_log (ERROR, "Error updating flow session") no_output) /\
  (forall packet,
     _extract_packet_info (t_extract (at_time 0)) packet = Some icmp_self ->
     _analyze_packet (fun s => s) connection_get_db_session (at_time 0) packet
       ∅ no_output
     = (∅, write_log (ERROR, "Error updating flow session")
             (_store_packet connection_get_db_session icmp_self no_output))) /\
  new_rows no_output (_store_packet connection_get_db_session icmp_self no_output)
  = [] /\
  (forall commit,
     commit (db no_output) (PacketRow (packet_row icmp_self)) = true ->
     new_rows no_output (_store_packet (SessionManager commit) icmp_self no_output)
     = [PacketRow (packet_row icmp_self)]).
Proof.
  split; [reflexivity|]. split; [reflexivity|]. split; [reflexivity|].
  apply (portless_same_address_packet (fun s => s) connection_get_db_session
           (at_time 0) icmp_self ∅ no_output); reflexivity.
Defined.

(** The failing input of C10 through [_analyze_packet], with
    [get_db_session] as the repository defines it: no flow, no row, two
    errors logged. *)
Example icmp_to_self_analysed :
  _analyze_packet (fun s => s) connection_get_db_session (at_time 0) icmp_frame
    ∅ no_output
  = (∅, {| db := [];
           log := [(ERROR, "Error storing packet");
                   (ERROR, "Error updating flow session")] |}).
Proof. reflexivity. Qed.

(** Scenario D followed by one turn of the consumer and a stop. *)
Lemma counters_at_quiescence_witness :
  Z.of_nat (length (replicate (Z.to_nat 10001) icmp_frame)) = 10001 /\
  counters_balanced
    (run (fun s => s) connection_get_db_session
       (scenario_D ++ [ConsumerTurn (at_time 0); CallStop both_ended])
       (init, no_output)).1 /\
  let e := (run (fun s => s) connection_get_db_session
              (CallStart lab_host (Some "auto") None
               :: map FrameArrives (replicate (Z.to_nat 10001) icmp_frame))
              (init, no_output)).1 in
  packets_dropped (stats e) = 1 /\
  packets_captured (stats e) = 10000 /\
  qsize (packet_queue e) = 10000.
Proof.
  split; [vm_compute; reflexivity|].
  apply (counters_at_quiescence (fun s => s) connection_get_db_session
           (scenario_D ++ [ConsumerTurn (at_time 0); CallStop both_ended])
           lab_host (Some "auto") None (replicate (Z.to_nat 10001) icmp_frame)).
  vm_compute. reflexivity.
Defined.

(** * Further properties *)

(** ** Capture callback and consumer loop *)

Lemma step_counters md5_hexdigest get_db_session w ev :
  let w' := step md5_hexdigest get_db_session w ev in
  packets_captured (stats w.1) <= packets_captured (stats w'.1) /\
  packets_processed (stats w.1) <= packets_processed (stats w'.1) /\
  packets_dropped (stats w.1) <= packets_dropped (stats w'.1).
Proof.
  destruct w as [e env].
  destruct ev as [host interface packet_filter|joins|packet| |clock];
    cbn [step fst snd].
  - unfold start_capture. destruct (is_running e); cbn; lia.
  - unfold stop_capture. destruct (is_running e); cbn [negb]; [|cbn; lia].
    destruct (capture_thread _), (processor_thread _); cbn; lia.
  - unfold packet_handler. destruct (is_running e); cbn [negb]; [|lia].
    destruct (full _); cbn; lia.
  - cbn. lia.
  - unfold _process_packets_turn. destruct (packet_queue e); [cbn; lia|].
    destruct (_analyze_packet _ _ _ _ _ _). cbn. lia.
Qed.

(** X1: over every run of the engine (starts, stops, frames, capture
    failures, consumer turns, in any order) the counters packets_captured,
    packets_processed and packets_dropped never decrease; a restart does not
    reset them. *)
Theorem counters_never_decrease md5_hexdigest get_db_session events w :
  let w' := run md5_hexdigest get_db_session events w in
  packets_captured (stats w.1) <= packets_captured (stats w'.1) /\
  packets_processed (stats w.1) <= packets_processed (stats w'.1) /\
  packets_dropped (stats w.1) <= packets_dropped (stats w'.1).
Proof.
  revert w. induction events as [|ev events IH]; intros w; cbn [run foldl].
  - cbv zeta. lia.
  - pose proof (step_counters md5_hexdigest get_db_session w ev) as Hstep.
    specialize (IH (step md5_hexdigest get_db_session w ev)).
    cbv zeta in *. unfold run in IH. lia.
Qed.

(** X2: while the running flag is clear the callback ignores every frame:
    whatever arrives after a stop is neither queued nor counted, not even as
    dropped. *)
Theorem frames_ignored_when_stopped frames (e : Engine) :
  is_running e = false ->
  foldl (fun e packet => packet_handler packet e) e frames = e.
Proof.
  intros Hstopped. induction frames as [|packet frames IH]; [reflexivity|].
  cbn [foldl]. unfold packet_handler at 2. rewrite Hstopped. exact IH.
Qed.

(** Two frames arriving at the started engine after its flag was cleared. *)
Lemma frames_ignored_when_stopped_witness :
  is_running (set_running false started) = false /\
  foldl (fun e packet => packet_handler packet e) (set_running false started)
    [icmp_frame; icmp_frame]
  = set_running false started.
Proof.
  split; [reflexivity|].
  apply (frames_ignored_when_stopped [icmp_frame; icmp_frame]
           (set_running false started)).
  reflexivity.
Defined.

Lemma total_length_app frames packet :
  total_length (frames ++ [packet]) = total_length frames + pkt_len packet.
Proof.
  unfold total_length. induction frames as [|x frames IH]; cbn in *; lia.
Qed.

(** X3: frames that fit into the queue of a running engine are queued behind
    the frames already waiting, in their order of arrival; each counts as
    captured, its length is added to bytes_captured, and none is dropped. *)
Theorem burst_that_fits_is_queued_in_order frames : forall (e : Engine),
  is_running e = true ->
  qsize (packet_queue e) + Z.of_nat (length frames) <= maxsize ->
  let e' := foldl (fun e packet => packet_handler packet e) e frames in
  packet_queue e' = packet_queue e ++ frames /\
  packets_captured (stats e')
  = packets_captured (stats e) + Z.of_nat (length frames) /\
  bytes_captured (stats e') = bytes_captured (stats e) + total_length frames /\
  packets_dropped (stats e') = packets_dropped (stats e) /\
  packets_processed (stats e') = packets_processed (stats e).
Proof.
  induction frames as [|packet frames IH]; intros e Hrun Hfit.
  - cbn. rewrite app_nil_r. repeat split; lia.
  - cbn [foldl length] in *.
    assert (Hroom : full (packet_queue e) = false).
    { rewrite full_spec. apply Z.leb_gt. lia. }
    assert (Hstep : packet_handler packet e
              = {| is_running := is_running e;
                   capture_thread := capture_thread e;
                   processor_thread := processor_thread e;
                   packet_queue := packet_queue e ++ [packet];
                   stats := {| packets_captured := packets_captured (stats e) + 1;
                               packets_processed := packets_processed (stats e);
                               packets_dropped := packets_dropped (stats e);
                               bytes_captured := bytes_captured (stats e) + pkt_len packet;
                               stats_start_time := stats_start_time (stats e) |};
                   active_flows := active_flows e |}).
    { unfold packet_handler. rewrite Hrun, Hroom. reflexivity. }
    rewrite Hstep.
    match goal with |- context [foldl _ ?e1 frames] =>
      destruct (IH e1) as (H1 & H2 & H3 & H4 & H5) end.
    + exact Hrun.
    + cbn [packet_queue]. rewrite qsize_app. lia.
    + cbv zeta. rewrite H1, H2, H3, H4, H5.
      cbn [packet_queue stats packets_captured packets_processed
           packets_dropped bytes_captured].
      rewrite <- app_assoc. cbn [app total_length foldr].
      fold (total_length frames). repeat split; lia.
Qed.

(** Three frames on the freshly started engine. *)
Lemma burst_that_fits_is_queued_in_order_witness :
  is_running started = true /\
  qsize (packet_queue started)
  + Z.of_nat (length [icmp_frame; icmp_frame; icmp_frame]) <= maxsize /\
  let e' := foldl (fun e packet => packet_handler packet e) started
              [icmp_frame; icmp_frame; icmp_frame] in
  packet_queue e' = packet_queue started ++ [icmp_frame; icmp_frame; icmp_frame] /\
  packets_captured (stats e')
  = packets_captured (stats started)
    + Z.of_nat (length [icmp_frame; icmp_frame; icmp_frame]) /\
  bytes_captured (stats e')
  = bytes_captured (stats started)
    + total_length [icmp_frame; icmp_frame; icmp_frame] /\
  packets_dropped (stats e') = packets_dropped (stats started) /\
  packets_processed (stats e') = packets_processed (stats started).
Proof.
  split; [reflexivity|]. split; [vm_compute; discriminate|].
  apply (burst_that_fits_is_queued_in_order [icmp_frame; icmp_frame; icmp_frame]
           started); [reflexivity|vm_compute; discriminate].
Defined.

(** X4: on a running engine whose queue is full every arriving frame is
    dropped: the queue, packets_captured and bytes_captured stay as they are
    and packets_dropped grows by the number of frames. *)
Theorem frames_dropped_when_full frames : forall (e : Engine),
  is_running e = true ->
  full (packet_queue e) = true ->
  let e' := foldl (fun e packet => packet_handler packet e) e frames in
  packet_queue e' = packet_queue e /\
  packets_captured (stats e') = packets_captured (stats e) /\
  bytes_captured (stats e') = bytes_captured (stats e) /\
  packets_dropped (stats e')
  = packets_dropped (stats e) + Z.of_nat (length frames) /\
  packets_processed (stats e') = packets_processed (stats e).
Proof.
  induction frames as [|packet frames IH]; intros e Hrun Hfull.
  - cbn. repeat split; lia.
  - cbn [foldl length].
    assert (Hstep : packet_handler packet e
              = {| is_running := is_running e;
                   capture_thread := capture_thread e;
                   processor_thread := processor_thread e;
                   packet_queue := packet_queue e;
                   stats := {| packets_captured := packets_captured (stats e);
                               packets_processed := packets_processed (stats e);
                               packets_dropped := packets_dropped (stats e) + 1;
                               bytes_captured := bytes_captured (stats e);
                               stats_start_time := stats_start_time (stats e) |};
                   active_flows := active_flows e |}).
    { unfold packet_handler. rewrite Hrun, Hfull. reflexivity. }
    rewrite Hstep.
    match goal with |- context [foldl _ ?e1 frames] =>
      destruct (IH e1 Hrun Hfull) as (H1 & H2 & H3 & H4 & H5) end.
    cbv zeta. rewrite H1, H2, H3, H4, H5. cbn. repeat split; lia.
Qed.

Lemma started_queue_filled :
  let e := foldl (fun e packet => packet_handler packet e) started
             (replicate (Z.to_nat 10000) icmp_frame) in
  is_running e = true /\ full (packet_queue e) = true.
Proof.
  cbv zeta.
  assert (Hzero : qsize (packet_queue started) = 0) by reflexivity.
  assert (Hempty : qsize (packet_queue started) <= maxsize)
    by (rewrite Hzero; unfold maxsize; lia).
  destruct (burst_counters (replicate (Z.to_nat 10000) icmp_frame) started
              eq_refl Hempty) as (Hrun & Hq & _).
  split; [exact Hrun|].
  rewrite full_spec. apply Z.leb_le.
  etransitivity; [|apply Z.eq_le_incl; symmetry; exact Hq].
  rewrite Hzero, length_replicate. unfold maxsize. lia.
Qed.

(** A full queue: the started engine after 10,000 frames. *)
Lemma frames_dropped_when_full_witness :
  is_running
    (foldl (fun e packet => packet_handler packet e) started
       (replicate (Z.to_nat 10000) icmp_frame)) = true /\
  full (packet_queue
          (foldl (fun e packet => packet_handler packet e) started
             (replicate (Z.to_nat 10000) icmp_frame))) = true /\
  let e' := foldl (fun e packet => packet_handler packet e)
              (foldl (fun e packet => packet_handler packet e) started
                 (replicate (Z.to_nat 10000) icmp_frame))
              [icmp_frame; icmp_frame] in
  packet_queue e'
  = packet_queue
      (foldl (fun e packet => packet_handler packet e) started
         (replicate (Z.to_nat 10000) icmp_frame)) /\
  packets_captured (stats e')
  = packets_captured
      (stats (foldl (fun e packet => packet_handler packet e) started
                (replicate (Z.to_nat 10000) icmp_frame))) /\
  bytes_captured (stats e')
  = bytes_captured
      (stats (foldl (fun e packet => packet_handler packet e) started
                (replicate (Z.to_nat 10000) icmp_frame))) /\
  packets_dropped (stats e')
  = packets_dropped
      (stats (foldl (fun e packet => packet_handler packet e) started
                (replicate (Z.to_nat 10000) icmp_frame)))
    + Z.of_nat (length [icmp_frame; icmp_frame]) /\
  packets_processed (stats e')
  = packets_processed
      (stats (foldl (fun e packet => packet_handler packet e) started
                (replicate (Z.to_nat 10000) icmp_frame))).
Proof.
  exact (conj (proj1 started_queue_filled)
           (conj (proj2 started_queue_filled)
              (frames_dropped_when_full [icmp_frame; icmp_frame]
                 (foldl (fun e packet => packet_handler packet e) started
                    (replicate (Z.to_nat 10000) icmp_frame))
                 (proj1 started_queue_filled) (proj2 started_queue_filled)))).
Defined.

(** X5: once the running flag is clear, the consumer loop ends after one turn
    per queued frame (given that many clock readings): it leaves an empty
    queue and has counted every frame that was waiting as processed, while
    packets_captured and packets_dropped stay as they are. *)
Theorem stopped_consumer_drains_queue md5_hexdigest get_db_session :
  forall (clocks : list Clock) (e : Engine) (env : Env),
  is_running e = false ->
  (length (packet_queue e) <= length clocks)%nat ->
  exists e' env',
    _process_packets md5_hexdigest get_db_session clocks e env = Some (e', env') /\
    packet_queue e' = [] /\
    is_running e' = false /\
    packets_processed (stats e')
    = packets_processed (stats e) + qsize (packet_queue e) /\
    packets_captured (stats e') = packets_captured (stats e) /\
    packets_dropped (stats e') = packets_dropped (stats e).
Proof.
  intros clocks e. remember (packet_queue e) as queue eqn:Hqueue.
  revert clocks e Hqueue.
  induction queue as [|packet queue IH]; intros clocks e Hqueue env Hstopped Hfuel.
  - exists e, env.
    assert (Hdone : _process_packets_continues e = false).
    { unfold _process_packets_continues. rewrite Hstopped, <- Hqueue. reflexivity. }
    destruct clocks; cbn [_process_packets]; rewrite Hdone;
      (split; [reflexivity|]); rewrite <- Hqueue; unfold qsize; cbn [length];
      repeat split; try lia; exact Hstopped.
  - destruct clocks as [|clock clocks]; [cbn in Hfuel; lia|].
    assert (Hmore : _process_packets_continues e = true).
    { unfold _process_packets_continues. rewrite Hstopped, <- Hqueue. reflexivity. }
    cbn [_process_packets]. rewrite Hmore.
    unfold _process_packets_turn. rewrite <- Hqueue.
    destruct (_analyze_packet md5_hexdigest get_db_session clock packet
                (active_flows e) env) as [flows env1].
    match goal with |- context [_process_packets _ _ clocks ?e1 env1] =>
      destruct (IH clocks e1 eq_refl env1 Hstopped) as (e' & env' & Hloop & Hq & Hr & Hp & Hc & Hd)
    end.
    { cbn in Hfuel. lia. }
    exists e', env'. split; [exact Hloop|]. split; [exact Hq|]. split; [exact Hr|].
    rewrite Hp, Hc, Hd. cbn [stats packets_processed packets_captured packets_dropped].
    unfold qsize. cbn [length]. repeat split; lia.
Qed.

(** Three frames queued on the started engine, the flag cleared, three clock
    readings. *)
Lemma stopped_consumer_drains_queue_witness :
  let e := set_running false
             (foldl (fun e packet => packet_handler packet e) started
                [icmp_frame; icmp_frame; icmp_frame]) in
  let clocks := [at_time 1; at_time 2; at_time 3] in
  is_running e = false /\
  (length (packet_queue e) <= length clocks)%nat /\
  exists e' env',
    _process_packets (fun s => s) connection_get_db_session clocks e no_output
    = Some (e', env') /\
    packet_queue e' = [] /\
    is_running e' = false /\
    packets_processed (stats e')
    = packets_processed (stats e) + qsize (packet_queue e) /\
    packets_captured (stats e') = packets_captured (stats e) /\
    packets_dropped (stats e') = packets_dropped (stats e).
Proof.
  cbv zeta. split; [reflexivity|]. split; [vm_compute; lia|].
  apply (stopped_consumer_drains_queue (fun s => s) connection_get_db_session
           [at_time 1; at_time 2; at_time 3]
           (set_running false
              (foldl (fun e packet => packet_handler packet e) started
                 [icmp_frame; icmp_frame; icmp_frame]))
           no_output); [reflexivity|vm_compute; lia].
Defined.

(** ** Interface catalogue, continued *)

(** X6: when the enumeration gives at least one interface,
    [auto_select_interface] returns one of the enumerated names. *)
Theorem auto_select_returns_listed_interface get_if_list net_if_stats :
  get_available_interfaces get_if_list <> [] ->
  auto_select_interface get_if_list net_if_stats
  ∈ get_available_interfaces get_if_list.
Proof.
  intros Hsome. unfold auto_select_interface.
  rewrite first_up_find, first_non_loopback_find.
  destruct (List.find (is_up_not_loopback net_if_stats) _) as [i|] eqn:Hup.
  - apply list_elem_of_In. apply (find_some _ _ Hup).
  - destruct (List.find (fun i => negb (is_loopback i)) _) as [i|] eqn:Hnl.
    + apply list_elem_of_In. apply (find_some _ _ Hnl).
    + destruct (get_available_interfaces get_if_list) as [|i rest];
        [contradiction|]. apply elem_of_cons. left. reflexivity.
Qed.

Lemma auto_select_returns_listed_interface_witness :
  get_available_interfaces (get_if_list lab_host) <> [] /\
  auto_select_interface (get_if_list lab_host) (net_if_stats lab_host)
  ∈ get_available_interfaces (get_if_list lab_host).
Proof.
  split; [discriminate|].
  apply (auto_select_returns_listed_interface (get_if_list lab_host)
           (net_if_stats lab_host)).
  discriminate.
Defined.

(** X7: [auto_select_interface] never returns a loopback name (lo,
    localhost) when the enumeration holds an interface that is not one,
    whatever the interface statistics say or fail to say. *)
Theorem auto_select_avoids_loopback get_if_list net_if_stats other :
  other ∈ get_available_interfaces get_if_list ->
  is_loopback other = false ->
  is_loopback (auto_select_interface get_if_list net_if_stats) = false.
Proof.
  intros Hin Hother. unfold auto_select_interface.
  rewrite first_up_find, first_non_loopback_find.
  destruct (List.find (is_up_not_loopback net_if_stats) _) as [i|] eqn:Hup.
  - apply find_some in Hup as [_ Hup]. unfold is_up_not_loopback in Hup.
    destruct (is_loopback i); [discriminate|reflexivity].
  - destruct (List.find (fun i => negb (is_loopback i)) _) as [i|] eqn:Hnl.
    + apply find_some in Hnl as [_ Hnl]. destruct (is_loopback i);
        [discriminate|reflexivity].
    + apply list_elem_of_In in Hin.
      pose proof (find_none _ _ Hnl other Hin) as Hcontra. cbn in Hcontra.
      rewrite Hother in Hcontra. discriminate.
Qed.

Lemma auto_select_avoids_loopback_witness :
  "eth0" ∈ get_available_interfaces (Returned ["lo"; "eth0"]) /\
  is_loopback "eth0" = false /\
  is_loopback (auto_select_interface (Returned ["lo"; "eth0"])
                 (fun _ => ProbeRaises)) = false.
Proof.
  split; [apply elem_of_cons; right; apply elem_of_cons; left; reflexivity|].
  split; [reflexivity|].
  apply (auto_select_avoids_loopback (Returned ["lo"; "eth0"])
           (fun _ => ProbeRaises) "eth0");
    [apply elem_of_cons; right; apply elem_of_cons; left; reflexivity|reflexivity].
Defined.

(** ** Decoding *)

(** X8: every record [_extract_packet_info] builds carries the clock reading
    as timestamp and the frame length as packet size, a payload size that is
    not negative, and one of the four protocol names; it has both ports when
    the name is TCP or UDP and neither when it is ICMP or OTHER, and only a
    TCP record has flags. *)
Theorem extracted_record_shape now packet (p : PacketInfo) :
  _extract_packet_info now packet = Some p ->
  timestamp p = now /\
  packet_size p = pkt_len packet /\
  0 <= payload_size p /\
  match src_port p, dst_port p with
  | Some _, Some _ => protocol_name p = "TCP" \/ (protocol_name p = "UDP" /\ flags p = "")
  | None, None =>
      (protocol_name p = "ICMP" \/ protocol_name p = "OTHER") /\ flags p = ""
  | _, _ => False
  end.
Proof.
  unfold _extract_packet_info. intros Hinfo.
  destruct (match layer_IP packet with
            | Some ip => Some ip
            | None => layer_IPv6 packet
            end) as [ip|]; [|discriminate].
  assert (Hpayload : 0 <= (if 0 <? ip_payload_len ip then ip_payload_len ip else 0)).
  { destruct (Z.ltb_spec 0 (ip_payload_len ip)); lia. }
  destruct (layer_TCP packet) as [[[sport dport] tcp_flags]|].
  - inversion Hinfo; subst p; cbn. repeat split; auto.
  - destruct (layer_UDP packet) as [[sport dport]|].
    + inversion Hinfo; subst p; cbn. repeat split; auto.
    + destruct (layer_ICMP packet); inversion Hinfo; subst p; cbn;
        repeat split; auto.
Qed.

Lemma extracted_record_shape_witness :
  _extract_packet_info 0 icmp_frame = Some icmp_self /\
  timestamp icmp_self = 0 /\
  packet_size icmp_self = pkt_len icmp_frame /\
  0 <= payload_size icmp_self /\
  match src_port icmp_self, dst_port icmp_self with
  | Some _, Some _ =>
      protocol_name icmp_self = "TCP" \/
      (protocol_name icmp_self = "UDP" /\ flags icmp_self = "")
  | None, None =>
      (protocol_name icmp_self = "ICMP" \/ protocol_name icmp_self = "OTHER") /\
      flags icmp_self = ""
  | _, _ => False
  end.
Proof.
  split; [reflexivity|].
  apply (extracted_record_shape 0 icmp_frame icmp_self). reflexivity.
Defined.

(** X9: for the record of a frame, [_create_flow_id] raises (a [TypeError])
    exactly when the frame has neither a TCP nor a UDP layer and its source
    and destination addresses are equal; for every other frame with an IP
    layer it returns a key. *)
Theorem extracted_flow_key_defined md5_hexdigest now packet (p : PacketInfo) :
  _extract_packet_info now packet = Some p ->
  if bool_decide (layer_TCP packet = None /\ layer_UDP packet = None /\
                  src_ip p = dst_ip p)
  then _create_flow_id md5_hexdigest p = Raised "TypeError"
  else exists key, _create_flow_id md5_hexdigest p = Returned key.
Proof.
  unfold _extract_packet_info. intros Hinfo.
  destruct (match layer_IP packet with
            | Some ip => Some ip
            | None => layer_IPv6 packet
            end) as [ip|]; [|discriminate].
  assert (Hported : forall sport dport,
            src_port p = Some sport -> dst_port p = Some dport ->
            exists key, _create_flow_id md5_hexdigest p = Returned key).
  { intros sport dport Hs Hd.
    destruct (source_first_defined p) as [b Hb].
    { right. rewrite Hs, Hd. split; eexists; reflexivity. }
    unfold _create_flow_id. rewrite Hb. destruct b; eauto. }
  destruct (layer_TCP packet) as [[[sport dport] tcp_flags]|].
  - rewrite bool_decide_eq_false_2 by (intros [? _]; discriminate).
    inversion Hinfo; subst p. eapply Hported; reflexivity.
  - destruct (layer_UDP packet) as [[sport dport]|].
    + rewrite bool_decide_eq_false_2 by (intros (_ & ? & _); discriminate).
      inversion Hinfo; subst p. eapply Hported; reflexivity.
    + assert (Hports : src_port p = None /\ dst_port p = None).
      { destruct (layer_ICMP packet); inversion Hinfo; subst p; split; reflexivity. }
      destruct Hports as [Hs Hd].
      destruct (decide (src_ip p = dst_ip p)) as [Heq|Hne].
      * rewrite bool_decide_eq_true_2 by auto.
        unfold _create_flow_id, source_first.
        rewrite Heq, string_ltb_irrefl, String.eqb_refl, Hs, Hd. reflexivity.
      * rewrite bool_decide_eq_false_2 by tauto.
        destruct (source_first_defined p) as [b Hb]; [left; exact Hne|].
        unfold _create_flow_id. rewrite Hb. destruct b; eauto.
Qed.

Lemma extracted_flow_key_defined_witness :
  _extract_packet_info 0 icmp_frame = Some icmp_self /\
  if bool_decide (layer_TCP icmp_frame = None /\ layer_UDP icmp_frame = None /\
                  src_ip icmp_self = dst_ip icmp_self)
  then _create_flow_id (fun s => s) icmp_self = Raised "TypeError"
  else exists key, _create_flow_id (fun s => s) icmp_self = Returned key.
Proof.
  split; [reflexivity|].
  apply (extracted_flow_key_defined (fun s => s) 0 icmp_frame icmp_self).
  reflexivity.
Defined.

(** X10: a frame without an IPv4 or IPv6 layer is taken off the queue and
    counted as processed, and nothing else happens: no row, no log entry, no
    change of the flow table. *)
Theorem non_ip_frame_only_counted md5_hexdigest get_db_session clock
    (e : Engine) env packet rest :
  packet_queue e = packet :: rest ->
  layer_IP packet = None ->
  layer_IPv6 packet = None ->
  let w := _process_packets_turn md5_hexdigest get_db_session clock e env in
  w.2 = env /\
  active_flows w.1 = active_flows e /\
  packet_queue w.1 = rest /\
  packets_processed (stats w.1) = packets_processed (stats e) + 1 /\
  packets_captured (stats w.1) = packets_captured (stats e).
Proof.
  intros Hqueue Hip Hip6. unfold _process_packets_turn, _analyze_packet,
    _extract_packet_info. rewrite Hqueue, Hip, Hip6. cbn. repeat split.
Qed.

(** An ARP request at the head of the queue of the started engine. *)
Lemma non_ip_frame_only_counted_witness :
  let e := packet_handler arp_frame started in
  let w := _process_packets_turn (fun s => s) connection_get_db_session
             (at_time 0) e no_output in
  packet_queue e = arp_frame :: [] /\
  layer_IP arp_frame = None /\
  layer_IPv6 arp_frame = None /\
  w.2 = no_output /\
  active_flows w.1 = active_flows e /\
  packet_queue w.1 = [] /\
  packets_processed (stats w.1) = packets_processed (stats e) + 1 /\
  packets_captured (stats w.1) = packets_captured (stats e).
Proof.
  cbv zeta. split; [reflexivity|]. split; [reflexivity|]. split; [reflexivity|].
  apply (non_ip_frame_only_counted (fun s => s) connection_get_db_session
           (at_time 0) (packet_handler arp_frame started) no_output arp_frame []);
    reflexivity.
Defined.

(** ** Flow table *)

(** X11: a sweep at time t removes from the flow table exactly the flows last
    seen more than 300 s before t and leaves every other flow as it is; a
    flow idle for exactly 300 s stays. *)
Theorem sweep_removes_exactly_idle get_db_session current_time flows env key :
  (_cleanup_old_flows get_db_session current_time flows env).1 !! key
  = match flows !! key with
    | Some flow =>
        if 300000000 <? current_time - last_seen flow then None else Some flow
    | None => None
    end.
Proof.
  rewrite cleanup_lookup. destruct (flows !! key) as [flow|]; [|reflexivity].
  rewrite expired_spec. reflexivity.
Qed.

Lemma filter_none {A} (f : A -> bool) (l : list A) :
  (forall x, In x l -> f x = false) -> List.filter f l = [].
Proof.
  induction l as [|x l IH]; intros Hall; [reflexivity|]. cbn.
  rewrite (Hall x (or_introl eq_refl)). apply IH.
  intros y Hy. apply Hall. right. exact Hy.
Qed.

Lemma sweep_items_fresh get_db_session current_time items : forall acc,
  (forall item, In item items -> expired current_time item.2 = false) ->
  foldl (sweep_item get_db_session current_time) acc items = acc.
Proof.
  induction items as [|item items IH]; intros acc Hall; [reflexivity|].
  cbn [foldl]. rewrite sweep_item_fresh by (apply Hall; left; reflexivity).
  apply IH. intros y Hy. apply Hall. right. exact Hy.
Qed.

Lemma cleanup_nothing_due get_db_session current_time (flows : gmap string Flow) env :
  (forall key flow, flows !! key = Some flow -> expired current_time flow = false) ->
  _cleanup_old_flows get_db_session current_time flows env = (flows, env).
Proof.
  intros Hfresh.
  assert (Hitems : forall item, In item (map_to_list flows) ->
                     expired current_time item.2 = false).
  { intros [key flow] Hin. apply (Hfresh key).
    apply elem_of_map_to_list, list_elem_of_In, Hin. }
  rewrite cleanup_keys. unfold due.
  rewrite (filter_none _ _ Hitems), (sweep_items_fresh _ _ _ _ Hitems).
  reflexivity.
Qed.

(** X12: a sweep repeated at the same time finds nothing more to do: it
    removes no flow, writes no row and logs nothing. *)
Theorem sweep_twice_is_sweep_once get_db_session current_time flows env :
  let swept := _cleanup_old_flows get_db_session current_time flows env in
  _cleanup_old_flows get_db_session current_time swept.1 swept.2 = swept.
Proof.
  cbv zeta.
  rewrite (cleanup_nothing_due get_db_session current_time
             (_cleanup_old_flows get_db_session current_time flows env).1).
  - destruct (_cleanup_old_flows _ _ _ _). reflexivity.
  - intros key flow. rewrite cleanup_lookup.
    destruct (flows !! key) as [flow'|]; [|discriminate].
    destruct (expired current_time flow') eqn:Hexp; [discriminate|].
    intros [= <-]. exact Hexp.
Qed.

(** X13: the flow table after a call of [_update_flow_session] whose packet
    has the key [key].  Under [key] stands the flow of the packet: the old
    flow with last_seen set to the reading of the clock, packet_count raised
    by one and the packet size added to bytes_transferred (start time and
    endpoints as the first packet gave them), or a new flow with
    packet_count 1.  Every other key keeps its flow.  From both, the sweep of
    the same call then drops what was last seen more than 300 s before its
    own reading of the clock. *)
Theorem update_flow_session_table md5_hexdigest get_db_session clock
    (p : PacketInfo) flows env key other :
  _create_flow_id md5_hexdigest p = Returned key ->
  (_update_flow_session md5_hexdigest get_db_session clock p flows env).1 !! other
  = match (if decide (key = other)
           then Some match flows !! key with
                     | Some flow => touch_flow (t_update clock) p flow
                     | None => new_flow key (t_update clock) p
                     end
           else flows !! other) with
    | Some flow =>
        if 300000000 <? t_sweep clock - last_seen flow then None else Some flow
    | None => None
    end.
Proof.
  intros Hkey. unfold _update_flow_session. rewrite Hkey.
  rewrite cleanup_lookup, record_packet_lookup.
  destruct (decide (key = other)); [rewrite expired_spec; reflexivity|].
  destruct (flows !! other); [rewrite expired_spec|]; reflexivity.
Qed.

Lemma update_flow_session_table_witness :
  _create_flow_id (fun s => s) tcp_backward = Returned tcp_key /\
  (_update_flow_session (fun s => s) committing (at_time 10000000) tcp_backward
     (ingest_all (fun s => s) committing [(at_time 0, tcp_forward)]).1.1
     no_output).1 !! tcp_key
  = match (if decide (tcp_key = tcp_key)
           then Some match (ingest_all (fun s => s) committing
                              [(at_time 0, tcp_forward)]).1.1 !! tcp_key with
                     | Some flow => touch_flow (t_update (at_time 10000000))
                                      tcp_backward flow
                     | None => new_flow tcp_key (t_update (at_time 10000000))
                                 tcp_backward
                     end
           else (ingest_all (fun s => s) committing
                   [(at_time 0, tcp_forward)]).1.1 !! tcp_key) with
    | Some flow =>
        if 300000000 <? t_sweep (at_time 10000000) - last_seen flow
        then None else Some flow
    | None => None
    end.
Proof.
  split; [vm_compute; reflexivity|].
  apply (update_flow_session_table (fun s => s) committing (at_time 10000000)
           tcp_backward
           (ingest_all (fun s => s) committing [(at_time 0, tcp_forward)]).1.1
           no_output tcp_key tcp_key).
  vm_compute. reflexivity.
Defined.

Lemma ingest_sized_bytes md5_hexdigest get_db_session flows env history call :
  (forall key, from_option bytes_transferred 0 (flows !! key)
               = bytes_since_eviction key history) ->
  forall key,
    from_option bytes_transferred 0
      ((ingest_sized md5_hexdigest get_db_session (flows, env, history) call).1.1
         !! key)
    = bytes_since_eviction key
        (ingest_sized md5_hexdigest get_db_session (flows, env, history) call).2.
Proof.
  intros Hinv key. destruct call as [clock p].
  unfold ingest_sized, _update_flow_session, observation. cbn [fst snd].
  destruct (_create_flow_id md5_hexdigest p) as [flow_id|exc].
  - rewrite cleanup_lookup, flows_to_remove_due. cbn [bytes_since_eviction].
    pose proof (due_keys (t_sweep clock)
                  (record_packet flow_id (t_update clock) p flows) key) as Hdue.
    pose proof (record_packet_lookup flow_id (t_update clock) p flows key) as Hrec.
    set (flows1 := record_packet flow_id (t_update clock) p flows) in *.
    assert (Hbytes : from_option bytes_transferred 0 (flows1 !! key)
                     = (if bool_decide (Some flow_id = Some key)
                        then packet_size p else 0)
                       + bytes_since_eviction key history).
    { rewrite Hrec. destruct (decide (flow_id = key)) as [->|Hne].
      - rewrite bool_decide_eq_true_2 by reflexivity. rewrite <- Hinv.
        destruct (flows !! key); cbn; lia.
      - rewrite bool_decide_eq_false_2 by congruence. rewrite <- Hinv. cbn. lia. }
    destruct (flows1 !! key) as [flow|] eqn:Hlook.
    + destruct (expired (t_sweep clock) flow) eqn:Hexp.
      * rewrite bool_decide_eq_true_2; [reflexivity|]. apply Hdue. eauto.
      * rewrite bool_decide_eq_false_2; [exact Hbytes|].
        intros Hin. apply Hdue in Hin as (flow' & Hflow' & Hexp'). congruence.
    + destruct (bool_decide (key ∈ _)); [reflexivity|exact Hbytes].
  - cbn [bytes_since_eviction].
    rewrite bool_decide_eq_false_2 by apply not_elem_of_nil.
    rewrite bool_decide_eq_false_2 by discriminate.
    rewrite Hinv. lia.
Qed.

(** X14: at every point of every run of [_update_flow_session] calls from
    the empty table, the bytes_transferred of the flow filed under a key is
    the sum of the packet sizes of the calls seen for that key since the key
    was last evicted (0 for a key without a flow). *)
Theorem bytes_transferred_accounting md5_hexdigest get_db_session calls key :
  let w := ingest_all_sized md5_hexdigest get_db_session calls in
  from_option bytes_transferred 0 (w.1.1 !! key)
  = bytes_since_eviction key w.2.
Proof.
  cbv zeta. unfold ingest_all_sized.
  assert (Hgen : forall w,
            (forall key, from_option bytes_transferred 0 (w.1.1 !! key)
                         = bytes_since_eviction key w.2) ->
            forall key,
              from_option bytes_transferred 0
                ((foldl (ingest_sized md5_hexdigest get_db_session) w calls).1.1
                   !! key)
              = bytes_since_eviction key
                  (foldl (ingest_sized md5_hexdigest get_db_session) w calls).2).
  { induction calls as [|call calls IH]; intros w Hw; [exact Hw|].
    cbn [foldl]. apply IH. destruct w as [[flows env] history].
    apply ingest_sized_bytes, Hw. }
  apply Hgen. intros k. cbn. rewrite lookup_empty. reflexivity.
Qed.

Example bytes_of_tcp_conversation :
  from_option bytes_transferred 0
    ((ingest_all_sized (fun s => s) committing tcp_conversation).1.1 !! tcp_key)
  = 124.
Proof. vm_compute. reflexivity. Qed.

(** ** What reaches the database *)

Lemma sweep_generator_db current_time items : forall acc,
  db (foldl (sweep_item connection_get_db_session current_time) acc items).2
  = db acc.2.
Proof.
  induction items as [|item items IH]; intros acc; [reflexivity|].
  cbn [foldl]. rewrite IH. unfold sweep_item.
  destruct (float_gt_int _ _); reflexivity.
Qed.

Lemma analyze_generator_db md5_hexdigest clock packet flows env :
  db (_analyze_packet md5_hexdigest connection_get_db_session clock packet
        flows env).2 = db env.
Proof.
  unfold _analyze_packet. destruct (_extract_packet_info _ _) as [p|];
    [|reflexivity].
  unfold _update_flow_session. destruct (_create_flow_id _ _); [|reflexivity].
  rewrite cleanup_keys. cbn [snd]. rewrite sweep_generator_db. reflexivity.
Qed.

Lemma step_generator_db md5_hexdigest w ev :
  db (step md5_hexdigest connection_get_db_session w ev).2 = db w.2.
Proof.
  destruct w as [e env].
  destruct ev as [host interface packet_filter|joins|packet| |clock];
    cbn [step fst snd].
  - destruct (start_capture _ _ _ _) as [[? ?] ?]. reflexivity.
  - destruct (stop_capture _ _) as [[? ?] ?]. reflexivity.
  - reflexivity.
  - reflexivity.
  - unfold _process_packets_turn. destruct (packet_queue e) as [|packet rest];
      [reflexivity|].
    pose proof (analyze_generator_db md5_hexdigest clock packet (active_flows e) env)
      as Hdb.
    destruct (_analyze_packet _ _ _ _ _ _). exact Hdb.
Qed.

(** X15: with [get_db_session] as [database/connection.py] defines it (a
    generator function, so that every [with get_db_session()] raises), no run
    of the engine ever adds a row to the database, whatever frames it
    analyses and whatever flows it evicts. *)
Theorem engine_never_writes_a_row md5_hexdigest events w :
  db (run md5_hexdigest connection_get_db_session events w).2 = db w.2.
Proof.
  revert w. induction events as [|ev events IH]; intros w; [reflexivity|].
  cbn [run foldl]. unfold run in IH. rewrite IH. apply step_generator_db.
Qed.

(** X16: with a session manager whose commits succeed, analysing a frame
    that has an IP layer adds to the database the packet row of its record
    first, followed only by flow sessions of flows the sweep of the call
    found idle. *)
Theorem committed_packet_row_comes_first md5_hexdigest clock packet
    (p : PacketInfo) flows env :
  _extract_packet_info (t_extract clock) packet = Some p ->
  exists kept,
    new_rows env (_analyze_packet md5_hexdigest committing clock packet flows env).2
    = PacketRow (packet_row p) :: map FlowRow kept /\
    Forall (fun r => fs_status r = "timeout") kept.
Proof.
  intros Hinfo. unfold _analyze_packet. rewrite Hinfo.
  set (env1 := _store_packet committing p env).
  assert (Hstored : db env1 = db env ++ [PacketRow (packet_row p)]) by reflexivity.
  unfold _update_flow_session. destruct (_create_flow_id md5_hexdigest p) as [key|exc].
  - rewrite cleanup_keys. cbn [snd].
    destruct (sweep_rows committing (t_sweep clock)
                (map_to_list (record_packet key (t_update clock) p flows))
                ([], env1)) as (kept & Hsub & Hdb).
    exists kept. split.
    + unfold new_rows. rewrite Hdb. cbn [snd]. rewrite Hstored, <- app_assoc.
      apply drop_app_length.
    + apply List.Forall_forall. intros r Hin. apply list_elem_of_In in Hin.
      apply (elem_of_sublist _ _ _ Hin) in Hsub.
      apply list_elem_of_In, in_map_iff in Hsub as (item & <- & _). reflexivity.
  - exists []. split; [|constructor].
    unfold new_rows, write_log. cbn [db map]. rewrite Hstored.
    apply drop_app_length.
Qed.

Lemma committed_packet_row_comes_first_witness :
  _extract_packet_info (t_extract (at_time 0)) icmp_frame = Some icmp_self /\
  exists kept,
    new_rows no_output
      (_analyze_packet (fun s => s) committing (at_time 0) icmp_frame ∅ no_output).2
    = PacketRow (packet_row icmp_self) :: map FlowRow kept /\
    Forall (fun r => fs_status r = "timeout") kept.
Proof.
  split; [reflexivity|].
  apply (committed_packet_row_comes_first (fun s => s) (at_time 0) icmp_frame
           icmp_self ∅ no_output).
  reflexivity.
Defined.

(** ** Statistics and control, continued *)

(** X17: stopping neither clears nor freezes the statistics: the snapshot
    taken after [stop_capture] is the snapshot taken before it at the same
    clock reading, so the elapsed time keeps being measured from the last
    start. *)
Theorem stop_keeps_statistics joins now (e : Engine) :
  get_statistics now (stop_capture joins e).1.2 = get_statistics now e.
Proof.
  unfold stop_capture. destruct (is_running e); cbn [negb]; [|reflexivity].
  destruct (capture_thread (set_running false e)),
           (processor_thread (set_running false e)); reflexivity.
Qed.

(** X18: a start on a stopped engine keeps the four counters and replaces
    the start time by the current clock reading; the rate of the next
    snapshots is therefore the count captured over all earlier runs as well,
    divided by the time since this start. *)
Theorem restart_keeps_counters host interface packet_filter now (e : Engine) :
  is_running e = false ->
  let e' := (start_capture host interface packet_filter e).1.2 in
  get_statistics now e' !! "packets_captured"
  = Some (VInt (packets_captured (stats e))) /\
  get_statistics now e' !! "packets_processed"
  = Some (VInt (packets_processed (stats e))) /\
  get_statistics now e' !! "packets_dropped"
  = Some (VInt (packets_dropped (stats e))) /\
  get_statistics now e' !! "bytes_captured"
  = Some (VInt (bytes_captured (stats e))) /\
  get_statistics now e' !! "start_time" = Some (VDatetime (utcnow host)) /\
  get_statistics now e' !! "packets_per_second"
  = Some (if 0 <? now - utcnow host
          then VFloat (inject_Z (packets_captured (stats e))
                       / total_seconds (now - utcnow host))
          else VInt 0).
Proof.
  intros Hstopped. unfold start_capture. rewrite Hstopped. cbv zeta.
  cbn [fst snd]. unfold get_statistics.
  cbn [stats stats_start_time packets_captured packets_processed packets_dropped
       bytes_captured from_option].
  repeat split;
    repeat first [ rewrite lookup_insert_eq
                 | rewrite lookup_insert_ne by discriminate ];
    try reflexivity.
  rewrite float_gt_int_total_seconds. reflexivity.
Qed.

(** A second start five seconds after the first, on the engine that captured
    three frames and was stopped. *)
Lemma restart_keeps_counters_witness :
  let e := set_running false
             (foldl (fun e packet => packet_handler packet e) started
                [icmp_frame; icmp_frame; icmp_frame]) in
  let e' := (start_capture lab_host None None e).1.2 in
  is_running e = false /\
  get_statistics 6000000 e' !! "packets_captured"
  = Some (VInt (packets_captured (stats e))) /\
  get_statistics 6000000 e' !! "packets_processed"
  = Some (VInt (packets_processed (stats e))) /\
  get_statistics 6000000 e' !! "packets_dropped"
  = Some (VInt (packets_dropped (stats e))) /\
  get_statistics 6000000 e' !! "bytes_captured"
  = Some (VInt (bytes_captured (stats e))) /\
  get_statistics 6000000 e' !! "start_time" = Some (VDatetime (utcnow lab_host)) /\
  get_statistics 6000000 e' !! "packets_per_second"
  = Some (if 0 <? 6000000 - utcnow lab_host
          then VFloat (inject_Z (packets_captured (stats e))
                       / total_seconds (6000000 - utcnow lab_host))
          else VInt 0).
Proof.
  cbv zeta. split; [reflexivity|].
  apply (restart_keeps_counters lab_host None None 6000000
           (set_running false
              (foldl (fun e packet => packet_handler packet e) started
                 [icmp_frame; icmp_frame; icmp_frame]))).
  reflexivity.
Defined.

(** X19: after the capture thread has failed (at the opening of the source
    or later), [stop_capture] only logs that capture is not running: it
    changes nothing and waits for no worker, the processor thread
    included. *)
Theorem stop_after_capture_failure joins frames (e : Engine) :
  let failed := (_capture_packets (SniffRaises frames) e).1 in
  is_running failed = false /\
  stop_capture joins failed
  = (Returned tt, failed, [(WARNING, "Packet capture is not running")]).
Proof. cbv zeta. unfold stop_capture. cbn. split; reflexivity. Qed.

(** ** Web routes and application start *)

(** X20: the routes POST /capture/start and POST /capture/stop answer with
    status success for every form, engine state and outcome of the joins;
    when capture was already running the start route leaves the engine as it
    is, and when it was not running the stop route does, and the answers are
    the same. *)
Theorem capture_routes_always_answer_success host form joins (e : Engine) :
  (route_start_capture host form e).1.1 = ("success", "Packet capture started") /\
  (route_stop_capture joins e).1.1 = ("success", "Packet capture stopped") /\
  (if is_running e
   then (route_start_capture host form e).1.2 = e
   else (route_stop_capture joins e).1.2 = e).
Proof.
  unfold route_start_capture, route_stop_capture, start_capture, stop_capture.
  destruct (is_running e); cbn [negb].
  - destruct (capture_thread (set_running false e)),
             (processor_thread (set_running false e)); repeat split.
  - repeat split.
Qed.

(** X21: started through [main], the web server takes its debug setting from
    the command-line flag alone, never from the configuration; a host and a
    port given on the command line are used as they are without the
    configuration being read; the only failure is the [KeyError] of a
    configuration without an app section when the host or the port is not
    given; and a missing host or port falls back to the app section, then to
    0.0.0.0 and 8080. *)
Theorem main_run_settings config args_host args_port args_debug :
  match main_run config args_host args_port args_debug with
  | Returned (_, _, debug) => debug = args_debug
  | Raised exc =>
      exc = "KeyError" /\ config = None /\ (args_host = None \/ args_port = None)
  end /\
  (forall host port,
     main_run config (Some host) (Some port) args_debug
     = Returned (host, port, args_debug)) /\
  (forall section,
     main_run (Some section) args_host args_port args_debug
     = Returned (default (default "0.0.0.0" (app_host section)) args_host,
                 default (default 8080 (app_port section)) args_port,
                 args_debug)).
Proof.
  unfold main_run, run_settings, app_section. split; [|split].
  - destruct args_host, args_port, config; cbn; auto.
  - reflexivity.
  - intros section. destruct args_host, args_port; reflexivity.
Qed.

(** ** Database sessions *)


(** ** Further invariants of the flow table *)

Lemma foldl_delete_size (keys : list string) : forall (flows : gmap string Flow),
  (size (foldl (fun flows flow_id => delete flow_id flows) flows keys)
   <= size flows)%nat.
Proof.
  induction keys as [|k keys IH]; intros flows; cbn [foldl]; [lia|].
  etransitivity; [apply IH|]. rewrite map_size_delete.
  destruct (flows !! k); [apply Nat.le_pred_l|reflexivity].
Qed.

Lemma update_flow_session_size md5_hexdigest get_db_session clock p
    (flows : gmap string Flow) env :
  (size (_update_flow_session md5_hexdigest get_db_session clock p flows env).1
   <= S (size flows))%nat.
Proof.
  unfold _update_flow_session. destruct (_create_flow_id _ _) as [key|exc];
    [|cbn [fst]; lia].
  rewrite cleanup_keys. cbn [fst].
  etransitivity; [apply foldl_delete_size|].
  unfold record_packet. destruct (flows !! key) eqn:Hlook.
  - rewrite map_size_insert, Hlook. unfold id. lia.
  - rewrite map_size_insert, Hlook. lia.
Qed.

(** X23: every call of [_update_flow_session] adds at most one flow to the
    table, so after any run of calls from the empty table the number of
    active flows is at most the number of calls. *)
Theorem active_flows_bounded_by_calls md5_hexdigest get_db_session calls :
  (size (ingest_all md5_hexdigest get_db_session calls).1.1 <= length calls)%nat.
Proof.
  unfold ingest_all.
  assert (Hgen : forall w,
            (size (foldl (ingest md5_hexdigest get_db_session) w calls).1.1
             <= size w.1.1 + length calls)%nat).
  { induction calls as [|call calls IH]; intros w; cbn [foldl length]; [lia|].
    etransitivity; [apply IH|]. destruct w as [[flows env] history].
    cbn [ingest fst snd].
    pose proof (update_flow_session_size md5_hexdigest get_db_session call.1
                  call.2 flows env). lia. }
  etransitivity; [apply Hgen|]. cbn [fst]. rewrite map_size_empty. lia.
Qed.

Lemma ingest_times md5_hexdigest get_db_session flows env history call bound :
  (forall key flow, flows !! key = Some flow ->
     start_time flow <= last_seen flow /\ last_seen flow <= bound) ->
  bound <= t_update call.1 ->
  forall key flow,
    (ingest md5_hexdigest get_db_session (flows, env, history) call).1.1 !! key
    = Some flow ->
    start_time flow <= last_seen flow /\ last_seen flow <= t_update call.1.
Proof.
  intros Hinv Hbound key flow. destruct call as [clock p].
  unfold ingest, _update_flow_session. cbn [fst snd] in *.
  destruct (_create_flow_id md5_hexdigest p) as [flow_id|exc].
  - rewrite cleanup_lookup, record_packet_lookup.
    destruct (decide (flow_id = key)) as [->|Hne].
    + destruct (flows !! key) as [old|] eqn:Hold.
      * destruct (expired _ _); [discriminate|]. intros [= <-].
        destruct (Hinv key old Hold).
        cbn [touch_flow start_time last_seen]. lia.
      * destruct (expired _ _); [discriminate|]. intros [= <-].
        cbn [new_flow start_time last_seen]. lia.
    + destruct (flows !! key) as [old|] eqn:Hold; [|discriminate].
      destruct (expired _ _); [discriminate|]. intros [= <-].
      destruct (Hinv key old Hold). lia.
  - cbn [fst]. intros Hlook. destruct (Hinv key flow Hlook). lia.
Qed.

(** X24: when the clock readings taken by successive calls of
    [_update_flow_session] never go back, every flow in the table has its
    start time at or before its last-seen time. *)
Theorem start_time_not_after_last_seen md5_hexdigest get_db_session calls
    key (flow : Flow) :
  Sorted Z.le (map (fun call : Clock * PacketInfo => t_update call.1) calls) ->
  (ingest_all md5_hexdigest get_db_session calls).1.1 !! key = Some flow ->
  start_time flow <= last_seen flow.
Proof.
  unfold ingest_all. intros Hsorted.
  assert (Hgen : forall w bound,
            (forall key flow, w.1.1 !! key = Some flow ->
               start_time flow <= last_seen flow /\ last_seen flow <= bound) ->
            Sorted Z.le (bound :: map (fun call : Clock * PacketInfo =>
                                         t_update call.1) calls) ->
            forall key flow,
              (foldl (ingest md5_hexdigest get_db_session) w calls).1.1 !! key
              = Some flow ->
              start_time flow <= last_seen flow).
  { clear. induction calls as [|call calls IH]; intros w bound Hinv Hsorted key flow.
    - cbn [foldl]. intros Hlook. apply (Hinv key flow Hlook).
    - cbn [foldl map] in *. apply Sorted_inv in Hsorted as [Hrest Hhd].
      apply HdRel_inv in Hhd. destruct w as [[flows env] history].
      apply (IH _ (t_update call.1)); [|exact Hrest].
      intros k f. apply (ingest_times _ _ _ _ _ _ bound); assumption. }
  destruct calls as [|call calls].
  - cbn. rewrite lookup_empty. discriminate.
  - apply (Hgen _ (t_update call.1)).
    + cbn. intros k f. rewrite lookup_empty. discriminate.
    + cbn [map] in *. constructor; [exact Hsorted|]. constructor. lia.
Qed.

Lemma start_time_not_after_last_seen_witness :
  Sorted Z.le (map (fun call : Clock * PacketInfo => t_update call.1)
                 tcp_conversation) /\
  (ingest_all (fun s => s) committing tcp_conversation).1.1 !! tcp_key
  = Some {| session_id := tcp_key;
            flow_src_ip := "10.0.0.1"; flow_dst_ip := "10.0.0.2";
            flow_src_port := Some 1234; flow_dst_port := Some 80;
            flow_protocol := "TCP";
            start_time := 0; last_seen := 10000000;
            packet_count := 2; bytes_transferred := 124;
            status := "active" |} /\
  0 <= 10000000.
Proof.
  assert (Hsorted : Sorted Z.le (map (fun call : Clock * PacketInfo =>
                                        t_update call.1) tcp_conversation)).
  { repeat constructor. cbn. lia. }
  split; [exact Hsorted|]. split; [vm_compute; reflexivity|].
  apply (start_time_not_after_last_seen (fun s => s) committing tcp_conversation
           tcp_key
           {| session_id := tcp_key;
              flow_src_ip := "10.0.0.1"; flow_dst_ip := "10.0.0.2";
              flow_src_port := Some 1234; flow_dst_port := Some 80;
              flow_protocol := "TCP";
              start_time := 0; last_seen := 10000000;
              packet_count := 2; bytes_transferred := 124;
              status := "active" |} Hsorted).
  vm_compute. reflexivity.
Defined.
